(** * Fastly NGWAF / client-challenge audit: a shallow embedding

    Source: [fastly_vcl_ngwaf_checker_ver3_client_challenge_check.py].

    Python values are modelled as they reach the program: a [str] is a
    sequence of Unicode code points, a decoded JSON payload is a [json]
    tree, and every remote lookup goes through [make_api_request], which
    is the only place where the outside world is consulted. *)

From Stdlib Require Import String Ascii NArith ZArith Bool Lia List.
From Stdlib Require Import DecimalString.
Import ListNotations.

Local Set Warnings "-register-all".

(** ** Python strings *)

(** A Python [str]: a list of code points. *)
Definition pystr := list N.

(** An ASCII literal of the source, as a [pystr]. *)
Definition lit (s : string) : pystr :=
  map N_of_ascii (list_ascii_of_string s).

Definition pystr_eqb (a b : pystr) : bool :=
  if list_eq_dec N.eq_dec a b then true else false.

(** [needle in hay] on two strings: substring test. *)
Fixpoint starts_with (needle hay : pystr) : bool :=
  match needle, hay with
  | [], _ => true
  | c :: needle', x :: hay' => N.eqb c x && starts_with needle' hay'
  | _ :: _, [] => false
  end.

Fixpoint str_contains (needle hay : pystr) : bool :=
  starts_with needle hay ||
  match hay with
  | [] => false
  | _ :: hay' => str_contains needle hay'
  end.

(** [str(n)] for an [int]. *)
Definition str_int (z : Z) : pystr :=
  lit (NilZero.string_of_int (Z.to_int z)).

(** ** Decoded JSON payloads

    Numbers are restricted to integers; a mapping keeps its items in
    insertion order. *)
Inductive json : Type :=
| JNull
| JBool (b : bool)
| JNum (z : Z)
| JStr (s : pystr)
| JList (items : list json)
| JDict (items : list (pystr * json)).

(** Python truthiness, as used by [not x], [x and ...], [x or ...]. *)
Definition truthy (v : json) : bool :=
  match v with
  | JNull => false
  | JBool b => b
  | JNum z => negb (Z.eqb z 0)
  | JStr s => match s with [] => false | _ => true end
  | JList l => match l with [] => false | _ => true end
  | JDict d => match d with [] => false | _ => true end
  end.

Definition is_dict (v : json) : bool :=
  match v with JDict _ => true | _ => false end.


(** Item lookup in a mapping. *)
Fixpoint assoc (key : pystr) (d : list (pystr * json)) : option json :=
  match d with
  | [] => None
  | (k, v) :: d' => if pystr_eqb key k then Some v else assoc key d'
  end.

(** [d.get(key, default)] on the items of a dict. *)
Definition dict_get (d : list (pystr * json)) (key : pystr) (default : json) : json :=
  match assoc key d with
  | Some v => v
  | None => default
  end.

(** Equality of JSON values, as far as [x in container] needs it here:
    a string compared with an arbitrary value. *)
Definition json_is_str (s : pystr) (v : json) : bool :=
  match v with
  | JStr t => pystr_eqb s t
  | _ => false
  end.

(** ** Exceptions and outcomes *)

Inductive pyexn : Type :=
| AttributeError   (* [.get] on something that is not a dict *)
| TypeError.       (* iterating, [in] or [re.search] on a wrong type *)

Inductive outcome (A : Type) : Type :=
| Ok (a : A)
| Raise (e : pyexn)
| OutOfFuel.       (* an iteration bound of the model was exhausted *)

Arguments Ok {A} a.
Arguments Raise {A} e.
Arguments OutOfFuel {A}.

(** ** The [re] fragment used by the source *)

Inductive regex : Type :=
| Void                          (* matches nothing *)
| Eps                           (* matches the empty string *)
| Literal (c : N)               (* one literal character *)
| Space                         (* [\s] *)
| Seq (r1 r2 : regex)
| Alt (r1 r2 : regex)
| Star (r : regex).

Definition Plus (r : regex) : regex := Seq r (Star r).   (* [r+] *)
Definition Opt (r : regex) : regex := Alt r Eps.         (* [(?:r)?] *)

(** [\s] on a [str] pattern: the characters for which [str.isspace]
    holds. *)
Definition is_space (x : N) : bool :=
  ((9 <=? x) && (x <=? 13) || (28 <=? x) && (x <=? 32) ||
   (x =? 133) || (x =? 160) || (x =? 5760) ||
   (8192 <=? x) && (x <=? 8202) ||
   (x =? 8232) || (x =? 8233) || (x =? 8239) || (x =? 8287) ||
   (x =? 12288))%N.

Definition is_ascii_lower (c : N) : bool := ((97 <=? c) && (c <=? 122))%N.
Definition is_ascii_upper (c : N) : bool := ((65 <=? c) && (c <=? 90))%N.

(** Characters accepted for a literal [c] of the pattern.  Without
    [re.IGNORECASE] only [c] itself.  With it, an ASCII letter also accepts
    its other case, and the three letters [i], [s], [k] accept the four
    non-ASCII characters that lower-case or case-fold to them
    (U+0130, U+0131, U+017F, U+212A).  The pattern of the source only
    contains ASCII characters, for which this is the whole story. *)
Definition literal_accepts (ignorecase : bool) (c x : N) : bool :=
  (x =? c)%N ||
  (ignorecase &&
   ((is_ascii_lower c && (x =? c - 32)%N) ||
    (is_ascii_upper c && (x =? c + 32)%N) ||
    (((c =? 105) || (c =? 73)) && ((x =? 304) || (x =? 305)))%N ||
    (((c =? 115) || (c =? 83)) && (x =? 383))%N ||
    (((c =? 107) || (c =? 75)) && (x =? 8490))%N)).

Section Matcher.

Variable ignorecase : bool.

Fixpoint nullable (r : regex) : bool :=
  match r with
  | Void => false
  | Eps => true
  | Literal _ => false
  | Space => false
  | Seq r1 r2 => nullable r1 && nullable r2
  | Alt r1 r2 => nullable r1 || nullable r2
  | Star _ => true
  end.

(** Residual of [r] after reading the character [x]. *)
Fixpoint deriv (x : N) (r : regex) : regex :=
  match r with
  | Void => Void
  | Eps => Void
  | Literal c => if literal_accepts ignorecase c x then Eps else Void
  | Space => if is_space x then Eps else Void
  | Seq r1 r2 =>
      if nullable r1
      then Alt (Seq (deriv x r1) r2) (deriv x r2)
      else Seq (deriv x r1) r2
  | Alt r1 r2 => Alt (deriv x r1) (deriv x r2)
  | Star r1 => Seq (deriv x r1) (Star r1)
  end.

(** Does some prefix of [s] match [r]?  ([re.match]) *)
Fixpoint match_prefix (r : regex) (s : pystr) : bool :=
  nullable r ||
  match s with
  | [] => false
  | x :: s' => match_prefix (deriv x r) s'
  end.

(** Does [r] match somewhere in [s]?  (the truth value of [re.search]) *)
Fixpoint re_search (r : regex) (s : pystr) : bool :=
  match_prefix r s ||
  match s with
  | [] => false
  | _ :: s' => re_search r s'
  end.

(** Does the whole of [s] match [r]?  ([re.fullmatch]) *)
Fixpoint re_fullmatch (r : regex) (s : pystr) : bool :=
  match s with
  | [] => nullable r
  | x :: s' => re_fullmatch (deriv x r) s'
  end.

(** The strings matched by [r]. *)
Inductive matches : regex -> pystr -> Prop :=
| m_eps : matches Eps []
| m_literal c x : literal_accepts ignorecase c x = true -> matches (Literal c) [x]
| m_space x : is_space x = true -> matches Space [x]
| m_seq r1 r2 w1 w2 : matches r1 w1 -> matches r2 w2 -> matches (Seq r1 r2) (w1 ++ w2)
| m_alt_l r1 r2 w : matches r1 w -> matches (Alt r1 r2) w
| m_alt_r r1 r2 w : matches r2 w -> matches (Alt r1 r2) w
| m_star_nil r : matches (Star r) []
| m_star_cons r w1 w2 : matches r w1 -> matches (Star r) w2 -> matches (Star r) (w1 ++ w2).

End Matcher.

(** A run of literal characters. *)
Fixpoint literals (s : pystr) : regex :=
  match s with
  | [] => Eps
  | c :: s' => Seq (Literal c) (literals s')
  end.

(** [exact_match] of [check_client_challenge]. *)
Definition exact_match : pystr :=
  lit "pragma optional_param client_challenge_enabled true;".

(** [pattern] of [check_client_challenge]:
    [pragma\s+optional_param\s+client_challenge_enabled\s+true\s*(?:;)?] *)
Definition pattern : regex :=
  Seq (literals (lit "pragma"))
 (Seq (Plus Space)
 (Seq (literals (lit "optional_param"))
 (Seq (Plus Space)
 (Seq (literals (lit "client_challenge_enabled"))
 (Seq (Plus Space)
 (Seq (literals (lit "true"))
 (Seq (Star Space)
      (Opt (Literal 59 (* ; *))))))))))%N.

(** [re.search(pattern, content, re.IGNORECASE)] as a truth value. *)
Definition pattern_found (content : pystr) : bool :=
  re_search true pattern content.


(** ** The world: remote service and report files *)

(** What [make_api_request] returns: the decoded payload ([None] is
    [JNull]) and the status code ([None] when there was no response). *)
Record response : Type := { payload : json; status_code : option Z }.

(** One remote lookup that was made, with what came back. *)
Record call : Type := { endpoint : pystr; reply : response }.

(** A row handed to [csv.writer.writerow]. *)
Definition csv_row := list json.

Record world : Type := {
  log : list call;                             (* lookups so far, oldest first *)
  files : pystr -> option (list csv_row)       (* report files by name *)
}.

Definition M (A : Type) : Type := world -> outcome A * world.

Definition ret {A} (a : A) : M A := fun w => (Ok a, w).

Definition bind {A B} (m : M A) (k : A -> M B) : M B :=
  fun w =>
    match m w with
    | (Ok a, w') => k a w'
    | (Raise e, w') => (Raise e, w')
    | (OutOfFuel, w') => (OutOfFuel, w')
    end.

Definition lift {A} (o : outcome A) : M A := fun w => (o, w).

Declare Scope py_scope.
Delimit Scope py_scope with py.
Notation "x <- c1 ;; c2" := (bind c1 (fun x => c2))
  (at level 100, c1 at next level, right associativity) : py_scope.
Notation "c1 ;;; c2" := (bind c1 (fun _ => c2))
  (at level 100, right associativity) : py_scope.
Open Scope py_scope.

(** [status_code == n] *)
Definition status_is (n : Z) (r : response) : bool :=
  match status_code r with
  | Some z => Z.eqb z n
  | None => false
  end.

(** [str(status_code)] *)
Definition str_status (st : option Z) : pystr :=
  match st with
  | Some z => str_int z
  | None => lit "None"
  end.

(** [for x in xs: body(x)] *)
Fixpoint for_each {A} (xs : list A) (body : A -> M unit) : M unit :=
  match xs with
  | [] => ret tt
  | x :: xs' => body x ;;; for_each xs' body
  end.

(** [open(filename, "w")]: the file is created or truncated. *)
Definition open_w (filename : pystr) : M unit :=
  fun w => (Ok tt,
            {| log := log w;
               files := fun f => if pystr_eqb f filename then Some [] else files w f |}).

(** [writer.writerow(row)] on the writer of [filename]. *)
Definition writerow (filename : pystr) (row : csv_row) : M unit :=
  fun w => (Ok tt,
            {| log := log w;
               files := fun f =>
                 if pystr_eqb f filename
                 then Some (match files w f with Some rows => rows | None => [] end ++ [row])
                 else files w f |}).

(** What iterating over a value yields ([list.extend], [len]). *)
Definition py_iter (v : json) : outcome (list json) :=
  match v with
  | JList l => Ok l
  | JDict d => Ok (map (fun kv => JStr (fst kv)) d)
  | JStr s => Ok (map (fun c => JStr [c]) s)
  | _ => Raise TypeError
  end.

(** [needle in container] for a string [needle]. *)
Definition py_in (needle : pystr) (container : json) : outcome bool :=
  match container with
  | JStr s => Ok (str_contains needle s)
  | JList l => Ok (existsb (json_is_str needle) l)
  | JDict d => Ok (existsb (fun kv => pystr_eqb needle (fst kv)) d)
  | _ => Raise TypeError
  end.

(** [re.search(pattern, content, re.IGNORECASE)], as a truth value. *)
Definition py_re_search (content : json) : outcome bool :=
  match content with
  | JStr s => Ok (pattern_found s)
  | _ => Raise TypeError
  end.

Definition total_expected : nat := 468.
Definition page_size : nat := 100.

(** The dict returned by [get_service_details]. *)
Record service_details : Type := { name : json; active_version : pystr }.

Definition header : csv_row :=
  map (fun s => JStr (lit s))
      ["Service Name"; "Service ID"; "Active Version"; "WAF Status";
       "Client Challenge Enabled"]%string.

Definition present_mark : pystr := [9989%N].    (* U+2705 *)
Definition absent_mark : pystr := [10060%N].    (* U+274C *)

(** ** Sample remote services, for concrete runs *)

Definition no_reply : response := {| payload := JNull; status_code := None |}.

Definition replied (code : Z) (p : json) : response :=
  {| payload := p; status_code := Some code |}.

(** A remote service that answers from a fixed table of endpoints and does
    not answer anything else. *)
Definition scripted (table : list (pystr * response))
    : list call -> pystr -> pystr -> response :=
  fun _ _ ep =>
    match find (fun kv => pystr_eqb ep (fst kv)) table with
    | Some kv => snd kv
    | None => no_reply
    end.

Definition sample_repr (v : json) : pystr := lit "[...]".

Definition blank : world := {| log := []; files := fun _ => None |}.

Definition sample_token : pystr := lit "token".
Definition sample_customer : json := JStr (lit "cust").
Definition svc1 : json := JDict [(lit "id", JStr (lit "svc1"))].

Definition page1_endpoint : pystr :=
  lit "/services?filter[customer_id]=cust&page[number]=1&page[size]=100".
Definition page2_endpoint : pystr :=
  lit "/services?filter[customer_id]=cust&page[number]=2&page[size]=100".

Definition full_page : response :=
  replied 200 (JDict [(lit "data", JList (repeat svc1 100))]).

(** The first page is full, the second page request fails. *)
Definition api_truncated := scripted
  [(page1_endpoint, full_page); (page2_endpoint, replied 500 JNull)].

(** A single short page: one service with an id, one without, one with an
    empty id.  Nothing else answers. *)
Definition short_page : list json :=
  [svc1; JDict [(lit "name", JStr (lit "orphan"))];
   JDict [(lit "id", JStr [])]].

Definition api_short := scripted [(page1_endpoint, replied 200 (JList short_page))].

(** The lookups logged by an enumeration against these services. *)
Definition truncated_call1 : call :=
  {| endpoint := page1_endpoint; reply := full_page |}.
Definition truncated_call2 : call :=
  {| endpoint := page2_endpoint; reply := replied 500 JNull |}.
Definition short_call : call :=
  {| endpoint := page1_endpoint; reply := replied 200 (JList short_page) |}.


(** Details of [svc1], with a bare [0] as active version. *)
Definition api_zero_version := scripted
  [(lit "/service/svc1/details",
    replied 200 (JDict [(lit "name", JStr (lit "shop"));
                        (lit "active_version", JNum 0)]))].

Definition loose_content : pystr :=
  lit "# x" ++ [10%N] ++
  lit "PRAGMA  optional_param client_challenge_enabled   TRUE" ++ [10%N].

(** [svc1] at version 3: the listing has one unit without the directive
    and one with the loosely written directive; a snippet lookup gives 503. *)
Definition api_listing := scripted
  [(lit "/service/svc1/details",
    replied 200 (JDict [(lit "name", JStr (lit "shop"));
                        (lit "active_version", JDict [(lit "number", JNum 3)])]));
   (lit "/service/svc1/version/3/snippet/ngwaf_config_init", replied 503 JNull);
   (lit "/service/svc1/version/3/vcl",
    replied 200 (JList [JDict [(lit "name", JStr (lit "main"));
                               (lit "content", JStr (lit "sub vcl_recv { }"))];
                        JDict [(lit "name", JStr (lit "waf"));
                               (lit "content", JStr loose_content)]]))].


(** Details of [svc1] without any [active_version]. *)
Definition api_no_version := scripted
  [(lit "/service/svc1/details",
    replied 200 (JDict [(lit "name", JStr (lit "shop"))]))].

(** [svc1] at version 3 with nothing to find: one unit and a blob, both
    without the directive. *)
Definition clean_unit : json :=
  JDict [(lit "name", JStr (lit "main"));
         (lit "content", JStr (lit "sub vcl_recv { }"))].

Definition api_clean := scripted
  [(lit "/service/svc1/version/3/vcl", replied 200 (JList [clean_unit]));
   (lit "/service/svc1/version/3/generated_vcl",
    replied 200 (JDict [(lit "content", JStr (lit "vcl 4.1;"))]))].

(** A whole account that answers by endpoint alone: the short page of
    services, and [svc1] at version 3 with the directive in its listing. *)
Definition api_account := scripted
  [(page1_endpoint, replied 200 (JList short_page));
   (lit "/service/svc1/details",
    replied 200 (JDict [(lit "name", JStr (lit "shop"));
                        (lit "active_version", JDict [(lit "number", JNum 3)])]));
   (lit "/service/svc1/version/3/snippet/ngwaf_config_init", replied 200 JNull);
   (lit "/service/svc1/version/3/vcl",
    replied 200 (JList [clean_unit;
                        JDict [(lit "name", JStr (lit "waf"));
                               (lit "content", JStr loose_content)]]))].

(** The same short page under the unpaginated and the paginated endpoint. *)
Definition api_both := scripted
  [(lit "/services?filter[customer_id]=cust", replied 200 (JList short_page));
   (page1_endpoint, replied 200 (JList short_page))].

(** An account whose only service has a listing with a unit that is not a
    mapping: the scan of [svc1] raises. *)
Definition broken_listing : list json := [clean_unit; JStr (lit "oops"); clean_unit].

Definition api_broken := scripted
  [(page1_endpoint, replied 200 (JList [svc1]));
   (lit "/service/svc1/details",
    replied 200 (JDict [(lit "active_version", JDict [(lit "number", JNum 3)])]));
   (lit "/service/svc1/version/3/vcl", replied 200 (JList broken_listing))].


(** Details of [svc1] whose [active_version] is the bare boolean [true];
    the lookups of the scanner go unanswered. *)
Definition api_true_version := scripted
  [(lit "/service/svc1/details",
    replied 200 (JDict [(lit "name", JStr (lit "shop"));
                        (lit "active_version", JBool true)]))].

(** ** The program *)

Section Program.

(** The remote service: given the lookups made so far, the credential and
    the endpoint, what [requests.get] plus decoding hands back. *)
Variable api : list call -> pystr -> pystr -> response.

(** [str()] of a list or a dict (Python's [repr] of containers). *)
Variable repr_container : json -> pystr.

(** [str(v)], also the formatting of [{v}] in an f-string. *)
Definition py_str (v : json) : pystr :=
  match v with
  | JNull => lit "None"
  | JBool true => lit "True"
  | JBool false => lit "False"
  | JNum z => str_int z
  | JStr s => s
  | JList _ | JDict _ => repr_container v
  end.

(** [x or default] *)
Definition py_or (x default : json) : json :=
  if truthy x then x else default.

Definition make_api_request (endpoint : pystr) (api_token : pystr) : M response :=
  fun w =>
    let r := api (log w) api_token endpoint in
    (Ok r, {| log := log w ++ [{| endpoint := endpoint; reply := r |}];
              files := files w |}).

Definition services_endpoint (customer_id : json) (page : Z) : pystr :=
  lit "/services?filter[customer_id]=" ++ py_str customer_id ++
  lit "&page[number]=" ++ str_int page ++ lit "&page[size]=100".

(** The [while] loop of [get_services]; [fuel] bounds the number of
    iterations. *)
Fixpoint get_services_loop (fuel : nat) (api_token : pystr) (customer_id : json)
    (all_services : list json) (page : Z) : M (list json) :=
  if length all_services <? total_expected then
    match fuel with
    | O => lift OutOfFuel
    | S fuel' =>
        r <- make_api_request (services_endpoint customer_id page) api_token ;;
        let services := payload r in
        if negb (truthy services) || negb (status_is 200 r) then
          ret all_services
        else
          let data :=
            match services with
            | JDict d => dict_get d (lit "data") (JList [])
            | _ => services
            end in
          items <- lift (py_iter data) ;;
          let all_services := all_services ++ items in
          if length items <? page_size then ret all_services
          else get_services_loop fuel' api_token customer_id all_services (page + 1)
    end
  else ret all_services.

Definition get_services (api_token : pystr) (customer_id : json) : M (list json) :=
  get_services_loop 5 api_token customer_id [] 1.

Definition details_endpoint (service_id : json) : pystr :=
  lit "/service/" ++ py_str service_id ++ lit "/details".

Definition get_service_details (api_token : pystr) (service_id : json)
    : M service_details :=
  r <- make_api_request (details_endpoint service_id) api_token ;;
  let details := payload r in
  if truthy details && status_is 200 r then
    match details with
    | JDict d =>
        let active_version := dict_get d (lit "active_version") (JDict []) in
        let version_number :=
          match active_version with
          | JDict av => py_str (dict_get av (lit "number") (JStr (lit "None")))
          | _ => py_str (py_or active_version (JStr (lit "None")))
          end in
        ret {| name := dict_get d (lit "name") (JStr (lit "Unnamed Service"));
               active_version := version_number |}
    | _ => lift (Raise AttributeError)
    end
  else
    ret {| name := JStr (lit "Unnamed Service"); active_version := lit "Unknown" |}.

Definition snippet_endpoint (service_id : json) (version snippet_name : pystr) : pystr :=
  lit "/service/" ++ py_str service_id ++ lit "/version/" ++ version ++
  lit "/snippet/" ++ snippet_name.

Definition check_snippet (api_token : pystr) (service_id : json) (version : pystr)
    (snippet_name : pystr) : M pystr :=
  r <- make_api_request (snippet_endpoint service_id version snippet_name) api_token ;;
  if status_is 200 r then ret present_mark
  else if status_is 404 r then ret absent_mark
  else ret (lit "Error: " ++ py_str (py_or (payload r) (JStr (lit "Unknown"))) ++
            lit " (Status: " ++ str_status (status_code r) ++ lit ")").

Definition vcl_endpoint (service_id : json) (version : pystr) : pystr :=
  lit "/service/" ++ py_str service_id ++ lit "/version/" ++ version ++ lit "/vcl".

Definition generated_vcl_endpoint (service_id : json) (version : pystr) : pystr :=
  lit "/service/" ++ py_str service_id ++ lit "/version/" ++ version ++
  lit "/generated_vcl".

(** The [for vcl in vcl_data] loop: [Ok true] stands for [return True],
    [Ok false] for the loop running to its end. *)
Fixpoint scan_vcl_data (vcl_data : list json) : outcome bool :=
  match vcl_data with
  | [] => Ok false
  | vcl :: rest =>
      match vcl with
      | JDict d =>
          let content := dict_get d (lit "content") (JStr []) in
          match py_in exact_match content with
          | Ok true => Ok true
          | Ok false =>
              match py_re_search content with
              | Ok true => Ok true
              | Ok false => scan_vcl_data rest
              | other => other
              end
          | other => other
          end
      | _ => Raise AttributeError
      end
  end.

(** The first tier of [check_client_challenge]: what the listing of named
    VCL units contributes.  A failed lookup and a payload that is not a
    list contribute nothing. *)
Definition scan_listing (r : response) : outcome bool :=
  if status_is 200 r then
    match payload r with
    | JList vcl_data => scan_vcl_data vcl_data
    | _ => Ok false
    end
  else Ok false.

Definition check_client_challenge (api_token : pystr) (service_id : json)
    (version : pystr) : M bool :=
  r <- make_api_request (vcl_endpoint service_id version) api_token ;;
  found <- lift (scan_listing r) ;;
  if found then ret true
  else
    g <- make_api_request (generated_vcl_endpoint service_id version) api_token ;;
    if status_is 200 g then
      match payload g with
      | JDict d =>
          let content := dict_get d (lit "content") (JStr []) in
          hit <- lift (py_in exact_match content) ;;
          if hit then ret true
          else
            hit' <- lift (py_re_search content) ;;
            if hit' then ret true else ret false
      | _ => ret false
      end
    else ret false.

(** The guard of [main] before the scanner is called:
    [active_version and active_version != "None" and active_version != "Unknown"] *)
Definition version_usable (active_version : pystr) : bool :=
  truthy (JStr active_version) &&
  negb (pystr_eqb active_version (lit "None")) &&
  negb (pystr_eqb active_version (lit "Unknown")).

(** The body of [for service in services] in [main], writing to the
    report [filename]. *)
Definition audit_service (api_token : pystr) (filename : pystr) (service : json)
    : M unit :=
  match service with
  | JDict s =>
      let service_id := dict_get s (lit "id") JNull in
      if negb (truthy service_id) then ret tt
      else
        details <- get_service_details api_token service_id ;;
        let service_name := name details in
        let active_version := active_version details in
        verdict <-
          (if version_usable active_version then
             waf_status <- check_snippet api_token service_id active_version
                             (lit "ngwaf_config_init") ;;
             client_challenge_enabled <-
               check_client_challenge api_token service_id active_version ;;
             ret (waf_status, client_challenge_enabled)
           else ret (lit "No active version", false)) ;;
        writerow filename
          [service_name; service_id; JStr active_version; JStr (fst verdict);
           JStr (py_str (JBool (snd verdict)))]
  | _ => lift (Raise AttributeError)
  end.

Definition report_file (timestamp : pystr) : pystr :=
  lit "account_report_" ++ timestamp ++ lit ".csv".

Definition fixed_report_file : pystr := lit "cid_ngwaf_results.csv".

(** One pass of [main] over the services, producing one report file. *)
Definition write_report (api_token : pystr) (services : list json) (filename : pystr)
    : M unit :=
  open_w filename ;;;
  writerow filename header ;;;
  for_each services (audit_service api_token filename).

(** [main], after [load_config] has produced the credential and the
    account id; [timestamp] is the formatted [datetime.now()]. *)
Definition main (api_token : pystr) (customer_id : json) (timestamp : pystr) : M unit :=
  services <- get_services api_token customer_id ;;
  if negb (truthy (JList services)) then ret tt
  else for_each [report_file timestamp; fixed_report_file]
                (write_report api_token services).


(** ** The rest of the program and its earlier variants *)

(** What [open(config_file)] followed by [json.load] gives [load_config]:
    no such file, a file that does not decode, or the decoded value. *)
Inductive config_source : Type :=
| ConfigMissing
| ConfigInvalid
| ConfigParsed (config : json).

(** How [load_config] ends: it returns, it calls [sys.exit], or an
    exception that none of its handlers catches escapes. *)
Inductive startup (A : Type) : Type :=
| Loaded (a : A)
| SystemExit (code : Z)
| Uncaught (e : pyexn).

Arguments Loaded {A} a.
Arguments SystemExit {A} code.
Arguments Uncaught {A} e.

(** [load_config]: the pair [(api_token, customer_id)] of the file. *)
Definition load_config (src : config_source) : startup (json * json) :=
  match src with
  | ConfigMissing => SystemExit 1
  | ConfigInvalid => SystemExit 1
  | ConfigParsed config =>
      match config with
      | JDict c =>
          let api_token := dict_get c (lit "api_token") JNull in
          let customer_id := dict_get c (lit "customer_id") JNull in
          if negb (truthy api_token) || negb (truthy customer_id)
          then SystemExit 1
          else Loaded (api_token, customer_id)
      | _ => Uncaught AttributeError
      end
  end.

(** [get_services] of the first variant ([fastly_vcl_ngwaf_checker.py]):
    one lookup, no pagination.  It returns whatever sits in the payload. *)
Definition services_endpoint_v1 (customer_id : json) : pystr :=
  lit "/services?filter[customer_id]=" ++ py_str customer_id.

Definition get_services_v1 (api_token : pystr) (customer_id : json) : M json :=
  r <- make_api_request (services_endpoint_v1 customer_id) api_token ;;
  match payload r with
  | JNull => ret (JList [])
  | JDict d => ret (dict_get d (lit "data") (JList []))
  | JList l => ret (JList l)
  | _ => ret (JList [])
  end.

(** [main] of the second variant ([fastly_vcl_ngwaf_checker_ver2.py]):
    the same traversal without the client-challenge scan, four columns. *)
Definition header_v2 : csv_row :=
  map (fun s => JStr (lit s))
      ["Service Name"; "Service ID"; "Active Version"; "WAF Status"]%string.

Definition audit_service_v2 (api_token : pystr) (filename : pystr) (service : json)
    : M unit :=
  match service with
  | JDict s =>
      let service_id := dict_get s (lit "id") JNull in
      if negb (truthy service_id) then ret tt
      else
        details <- get_service_details api_token service_id ;;
        let service_name := name details in
        let active_version := active_version details in
        waf_status <-
          (if version_usable active_version then
             check_snippet api_token service_id active_version
               (lit "ngwaf_config_init")
           else ret (lit "No active version")) ;;
        writerow filename
          [service_name; service_id; JStr active_version; JStr waf_status]
  | _ => lift (Raise AttributeError)
  end.

Definition write_report_v2 (api_token : pystr) (services : list json)
    (filename : pystr) : M unit :=
  open_w filename ;;;
  writerow filename header_v2 ;;;
  for_each services (audit_service_v2 api_token filename).

Definition main_v2 (api_token : pystr) (customer_id : json) (timestamp : pystr)
    : M unit :=
  services <- get_services api_token customer_id ;;
  if negb (truthy (JList services)) then ret tt
  else for_each [report_file timestamp; fixed_report_file]
                (write_report_v2 api_token services).

(** ** Notions used to state the properties *)



(** A non-empty run of whitespace. *)
Definition ws_run (ws : pystr) : Prop :=
  ws <> [] /\ Forall (fun x => is_space x = true) ws.



(** A unit of the listing whose content, when present, is text. *)
Definition text_unit (u : json) : bool :=
  match u with
  | JDict d =>
      match dict_get d (lit "content") (JStr []) with
      | JStr _ => true
      | _ => false
      end
  | _ => false
  end.






(** The world after one more lookup. *)
Definition after_call (w : world) (api_token ep : pystr) : world :=
  {| log := log w ++ [{| endpoint := ep; reply := api (log w) api_token ep |}];
     files := files w |}.

(** The test applied to one content value: the literal first, then the
    pattern. *)
Definition exact_then_pattern (content : json) : outcome bool :=
  match py_in exact_match content with
  | Ok true => Ok true
  | Ok false => py_re_search content
  | other => other
  end.

(** What the generated blob contributes to the verdict. *)
Definition scan_blob (g : response) : outcome bool :=
  if status_is 200 g then
    match payload g with
    | JDict d => exact_then_pattern (dict_get d (lit "content") (JStr []))
    | _ => Ok false
    end
  else Ok false.

(** A page request counts as failed when
    [not services or status_code != 200]. *)
Definition page_failed (r : response) : bool :=
  negb (truthy (payload r)) || negb (status_is 200 r).

(** The sequence of services inside a page payload: its [data] field when
    the payload is a mapping, the payload itself otherwise. *)
Definition page_data (r : response) : json :=
  match payload r with
  | JDict d => dict_get d (lit "data") (JList [])
  | other => other
  end.

(** What a logged page request added to [all_services]. *)
Definition items_of_call (c : call) : list json :=
  if page_failed (reply c) then []
  else match py_iter (page_data (reply c)) with
       | Ok items => items
       | _ => []
       end.

(** A service of the listing has a usable identifier: it is a mapping
    whose [id] is present and truthy (for a string: non-empty). *)
Definition usable_id (service : json) : bool :=
  match service with
  | JDict s => truthy (dict_get s (lit "id") JNull)
  | _ => false
  end.


(** The identifier of a service of the listing, and the identifier cell
    of a report row. *)
Definition service_id_of (service : json) : json :=
  match service with
  | JDict s => dict_get s (lit "id") JNull
  | _ => JNull
  end.

Definition row_id (row : csv_row) : json := nth 1 row JNull.

(** The rows of a report file (none if it does not exist). *)
Definition rows_in (w : world) (filename : pystr) : list csv_row :=
  match files w filename with
  | Some rows => rows
  | None => []
  end.

(** The row [main] writes for a service that is not scanned. *)
Definition unscanned_row (det : service_details) (service_id : json) : csv_row :=
  [name det; service_id; JStr (active_version det);
   JStr (lit "No active version"); JStr (lit "False")].





(** What [get_service_details] makes of the reply to its lookup. *)
Definition details_of (r : response) : outcome service_details :=
  if truthy (payload r) && status_is 200 r then
    match payload r with
    | JDict d =>
        let av := dict_get d (lit "active_version") (JDict []) in
        Ok {| name := dict_get d (lit "name") (JStr (lit "Unnamed Service"));
              active_version :=
                match av with
                | JDict n => py_str (dict_get n (lit "number") (JStr (lit "None")))
                | _ => py_str (py_or av (JStr (lit "None")))
                end |}
    | _ => Raise AttributeError
    end
  else Ok {| name := JStr (lit "Unnamed Service"); active_version := lit "Unknown" |}.

(** What [check_snippet] makes of the reply to its lookup. *)
Definition snippet_status (r : response) : pystr :=
  if status_is 200 r then present_mark
  else if status_is 404 r then absent_mark
  else lit "Error: " ++ py_str (py_or (payload r) (JStr (lit "Unknown"))) ++
       lit " (Status: " ++ str_status (status_code r) ++ lit ")".

(** The remote service answers by endpoint alone: what was looked up
    before makes no difference. *)
Definition history_free : Prop :=
  forall h1 h2 tok ep, api h1 tok ep = api h2 tok ep.

(** The rows one service contributes to a report when the remote service
    is history free: none without a usable id, one otherwise. *)
Definition service_rows (tok : pystr) (service : json) : outcome (list csv_row) :=
  match service with
  | JDict s =>
      let sid := dict_get s (lit "id") JNull in
      if negb (truthy sid) then Ok []
      else
        match details_of (api [] tok (details_endpoint sid)) with
        | Ok det =>
            let v := active_version det in
            if version_usable v then
              let waf := snippet_status
                           (api [] tok (snippet_endpoint sid v (lit "ngwaf_config_init"))) in
              match
                match scan_listing (api [] tok (vcl_endpoint sid v)) with
                | Ok false => scan_blob (api [] tok (generated_vcl_endpoint sid v))
                | other => other
                end
              with
              | Ok cc => Ok [[name det; sid; JStr v; JStr waf;
                              JStr (py_str (JBool cc))]]
              | Raise e => Raise e
              | OutOfFuel => OutOfFuel
              end
            else Ok [unscanned_row det sid]
        | Raise e => Raise e
        | OutOfFuel => OutOfFuel
        end
  | _ => Raise AttributeError
  end.

(** The same for the second variant. *)
Definition service_rows_v2 (tok : pystr) (service : json) : outcome (list csv_row) :=
  match service with
  | JDict s =>
      let sid := dict_get s (lit "id") JNull in
      if negb (truthy sid) then Ok []
      else
        match details_of (api [] tok (details_endpoint sid)) with
        | Ok det =>
            let v := active_version det in
            Ok [[name det; sid; JStr v;
                 JStr (if version_usable v then
                         snippet_status
                           (api [] tok (snippet_endpoint sid v (lit "ngwaf_config_init")))
                       else lit "No active version")]]
        | Raise e => Raise e
        | OutOfFuel => OutOfFuel
        end
  | _ => Raise AttributeError
  end.

(** [t] is accepted for the token [tok] by the case-insensitive matcher. *)
Definition accepted_as (tok t : pystr) : Prop :=
  Forall2 (fun c x => literal_accepts true c x = true) tok t.

(** The rows of a whole report pass, from the rows of each service: the
    pass stops at the first service that raises. *)
Fixpoint report_rows (rows_of : json -> outcome (list csv_row))
    (services : list json) : outcome (list csv_row) :=
  match services with
  | [] => Ok []
  | svc :: rest =>
      match rows_of svc with
      | Ok rows =>
          match report_rows rows_of rest with
          | Ok more => Ok (rows ++ more)
          | other => other
          end
      | other => other
      end
  end.

(** A well-formed data row of the report. *)
Definition row_ok (row : csv_row) : Prop :=
  exists nm sid v waf cc,
    row = [nm; sid; JStr v; JStr waf; JStr (py_str (JBool cc))] /\
    truthy sid = true /\
    (version_usable v = false -> waf = lit "No active version" /\ cc = false) /\
    (version_usable v = true ->
     waf = present_mark \/ waf = absent_mark \/
     starts_with (lit "Error: ") waf = true).

(** How a pass ends, forgetting the rows. *)
Definition done_of {A} (o : outcome A) : outcome unit :=
  match o with
  | Ok _ => Ok tt
  | Raise e => Raise e
  | OutOfFuel => OutOfFuel
  end.

(** ** Facts about the matcher *)

Lemma matches_nil_nullable ic r : matches ic r [] -> nullable r = true.
Proof.
  intros H. remember [] as w eqn:Hw.
  induction H; simpl; auto; try discriminate.
  - apply app_eq_nil in Hw. destruct Hw; subst.
    rewrite IHmatches1, IHmatches2; auto.
  - rewrite IHmatches; auto.
  - rewrite IHmatches; auto using orb_true_r.
Qed.

Lemma nullable_matches_nil ic r : nullable r = true -> matches ic r [].
Proof.
  induction r; simpl; intros H; try discriminate.
  - constructor.
  - apply andb_true_iff in H. destruct H.
    change (@nil N) with (@nil N ++ []). constructor; auto.
  - apply orb_true_iff in H. destruct H; [apply m_alt_l | apply m_alt_r]; auto.
  - constructor.
Qed.

Ltac inv H := inversion H; subst; clear H.

Lemma deriv_sound ic r : forall x w, matches ic (deriv ic x r) w -> matches ic r (x :: w).
Proof.
  induction r; simpl; intros x w H.
  - inv H.
  - inv H.
  - destruct (literal_accepts ic c x) eqn:E; inv H.
    constructor; assumption.
  - destruct (is_space x) eqn:E; inv H.
    constructor; assumption.
  - destruct (nullable r1) eqn:E.
    + inv H.
      * match goal with H : matches _ (Seq _ _) _ |- _ => inv H end.
        change (x :: w1 ++ w2) with ((x :: w1) ++ w2). constructor; auto.
      * change (x :: w) with ([] ++ x :: w).
        constructor; auto using nullable_matches_nil.
    + inv H.
      change (x :: w1 ++ w2) with ((x :: w1) ++ w2). constructor; auto.
  - inv H; [apply m_alt_l | apply m_alt_r]; auto.
  - inv H.
    change (x :: w1 ++ w2) with ((x :: w1) ++ w2). apply m_star_cons; auto.
Qed.

Lemma deriv_complete ic r : forall x w, matches ic r (x :: w) -> matches ic (deriv ic x r) w.
Proof.
  induction r; simpl; intros x w H.
  - inv H.
  - inv H.
  - inv H. match goal with H : _ = true |- _ => rewrite H end. constructor.
  - inv H. match goal with H : _ = true |- _ => rewrite H end. constructor.
  - inv H.
    destruct w1 as [|y w1]; simpl in *.
    + subst. match goal with H : matches _ r1 [] |- _ =>
        rewrite (matches_nil_nullable _ _ H) end.
      apply m_alt_r; auto.
    + match goal with H : _ :: _ = _ :: _ |- _ => injection H as Hx Hw end.
      subst. destruct (nullable r1).
      * apply m_alt_l. constructor; auto.
      * constructor; auto.
  - inv H; [apply m_alt_l | apply m_alt_r]; auto.
  - remember (Star r) as s eqn:Hs. remember (x :: w) as xw eqn:Hxw.
    revert w Hxw.
    induction H; intros v Hxw; try discriminate.
    injection Hs as Hr. subst.
    destruct w1 as [|y w1]; simpl in *.
    + apply IHmatches2; auto.
    + injection Hxw as Hx Hw. subst. constructor; auto.
Qed.

Lemma match_prefix_spec ic s : forall r,
  match_prefix ic r s = true <->
  exists w rest, s = w ++ rest /\ matches ic r w.
Proof.
  induction s as [|x s IH]; intros r; simpl.
  - rewrite orb_false_r. split.
    + intros H. exists [], []. split; auto using nullable_matches_nil.
    + intros (w & rest & Hs & Hm).
      symmetry in Hs. apply app_eq_nil in Hs. destruct Hs; subst.
      eapply matches_nil_nullable; eauto.
  - rewrite orb_true_iff, IH. split.
    + intros [H | (w & rest & Hs & Hm)].
      * exists [], (x :: s). split; auto using nullable_matches_nil.
      * exists (x :: w), rest. subst. split; auto using deriv_sound.
    + intros (w & rest & Hs & Hm). destruct w as [|y w]; simpl in *.
      * left. eapply matches_nil_nullable; eauto.
      * injection Hs as Hx Hw; subst. right. exists w, rest.
        split; auto using deriv_complete.
Qed.

Lemma re_search_spec ic r s :
  re_search ic r s = true <->
  exists pre w post, s = pre ++ w ++ post /\ matches ic r w.
Proof.
  induction s as [|x s IH]; cbn [re_search].
  - rewrite orb_false_r, match_prefix_spec. split.
    + intros (w & rest & Hs & Hm). exists [], w, rest. auto.
    + intros (pre & w & post & Hs & Hm).
      symmetry in Hs. apply app_eq_nil in Hs. destruct Hs as [-> Hs].
      exists w, post. auto.
  - rewrite orb_true_iff, IH, match_prefix_spec. split.
    + intros [(w & rest & Hs & Hm) | (pre & w & post & Hs & Hm)].
      * exists [], w, rest. auto.
      * exists (x :: pre), w, post. subst. auto.
    + intros (pre & w & post & Hs & Hm). destruct pre as [|y pre]; cbn [app] in *.
      * left. exists w, post. auto.
      * injection Hs as Hx Hw; subst. right. exists pre, w, post. auto.
Qed.

Lemma re_fullmatch_matches ic s : forall r,
  re_fullmatch ic r s = true -> matches ic r s.
Proof.
  induction s as [|x s IH]; intros r; cbn [re_fullmatch].
  - apply nullable_matches_nil.
  - intros H. apply deriv_sound. auto.
Qed.

(** ** Facts about substrings *)

Lemma starts_with_spec needle : forall hay,
  starts_with needle hay = true <-> exists post, hay = needle ++ post.
Proof.
  induction needle as [|c needle IH]; intros hay; simpl.
  - split; [intros _; exists hay; reflexivity | reflexivity].
  - destruct hay as [|x hay].
    + split; [discriminate | intros [post H]; discriminate].
    + rewrite andb_true_iff, N.eqb_eq, IH. split.
      * intros [-> [post ->]]. exists post. reflexivity.
      * intros [post H]. injection H as Hx Hh. subst. eauto.
Qed.

Lemma str_contains_spec needle hay :
  str_contains needle hay = true <->
  exists pre post, hay = pre ++ needle ++ post.
Proof.
  induction hay as [|x hay IH]; cbn [str_contains].
  - rewrite orb_false_r, starts_with_spec. split.
    + intros [post H]. exists [], post. assumption.
    + intros (pre & post & H). symmetry in H.
      apply app_eq_nil in H. destruct H as [-> H]. exists post. auto.
  - rewrite orb_true_iff, IH, starts_with_spec. split.
    + intros [[post H] | (pre & post & H)].
      * exists [], post. assumption.
      * exists (x :: pre), post. subst. reflexivity.
    + intros (pre & post & H). destruct pre as [|y pre]; cbn [app] in H.
      * left. eauto.
      * injection H as Hx Hh. subst. right. eauto.
Qed.

Lemma str_contains_middle needle pre post :
  str_contains needle (pre ++ needle ++ post) = true.
Proof. apply str_contains_spec. eauto. Qed.

(** ** Facts about the pattern *)



Lemma spaces_match_star ic ws :
  Forall (fun x => is_space x = true) ws -> matches ic (Star Space) ws.
Proof.
  induction 1 as [|x ws Hx _ IH].
  - constructor.
  - change (x :: ws) with ([x] ++ ws). apply m_star_cons; auto.
    constructor. assumption.
Qed.

Lemma ws_run_matches ic ws : ws_run ws -> matches ic (Plus Space) ws.
Proof.
  intros [Hne Hall]. destruct ws as [|x ws]; [congruence|].
  inv Hall. change (x :: ws) with ([x] ++ ws).
  constructor; [constructor; assumption | apply spaces_match_star; assumption].
Qed.


Lemma exact_match_matches : matches true pattern exact_match.
Proof. apply re_fullmatch_matches. vm_compute. reflexivity. Qed.

Lemma pattern_found_middle pre d post :
  matches true pattern d -> pattern_found (pre ++ d ++ post) = true.
Proof.
  intros H. unfold pattern_found. apply re_search_spec. eauto.
Qed.

Lemma exact_implies_pattern content :
  str_contains exact_match content = true -> pattern_found content = true.
Proof.
  intros H. apply str_contains_spec in H. destruct H as (pre & post & ->).
  apply pattern_found_middle, exact_match_matches.
Qed.


(** ** Running the scanner *)

Lemma status_is_spec n r : status_is n r = true <-> status_code r = Some n.
Proof.
  unfold status_is. destruct (status_code r) as [z|].
  - rewrite Z.eqb_eq. split; congruence.
  - split; discriminate.
Qed.

Lemma status_is_false n r : status_code r <> Some n -> status_is n r = false.
Proof.
  intros H. destruct (status_is n r) eqn:E; auto.
  apply status_is_spec in E. contradiction.
Qed.

Lemma scan_vcl_data_cons d rest :
  scan_vcl_data (JDict d :: rest) =
  match exact_then_pattern (dict_get d (lit "content") (JStr [])) with
  | Ok false => scan_vcl_data rest
  | other => other
  end.
Proof.
  cbn [scan_vcl_data]. unfold exact_then_pattern.
  destruct (py_in exact_match _) as [[|]| |]; reflexivity.
Qed.

Lemma exact_then_pattern_text s :
  exact_then_pattern (JStr s) = Ok (str_contains exact_match s || pattern_found s).
Proof.
  unfold exact_then_pattern. simpl.
  destruct (str_contains exact_match s); reflexivity.
Qed.

Lemma check_client_challenge_run tok sid ver w :
  let w1 := after_call w tok (vcl_endpoint sid ver) in
  let w2 := after_call w1 tok (generated_vcl_endpoint sid ver) in
  check_client_challenge tok sid ver w =
  match scan_listing (api (log w) tok (vcl_endpoint sid ver)) with
  | Ok false => (scan_blob (api (log w1) tok (generated_vcl_endpoint sid ver)), w2)
  | other => (other, w1)
  end.
Proof.
  unfold check_client_challenge, bind, make_api_request, lift, ret, after_call.
  cbn [log files].
  destruct (scan_listing _) as [[|]| |]; try reflexivity.
  unfold scan_blob.
  destruct (status_is 200 _); [|reflexivity].
  destruct (payload _); try reflexivity.
  unfold exact_then_pattern.
  destruct (py_in exact_match _) as [[|]| |]; try reflexivity.
  destruct (py_re_search _) as [[|]| |]; reflexivity.
Qed.

Lemma scan_vcl_data_finds before d rest content :
  forallb text_unit before = true ->
  dict_get d (lit "content") (JStr []) = JStr content ->
  pattern_found content = true ->
  scan_vcl_data (before ++ JDict d :: rest) = Ok true.
Proof.
  intros Hb Hd Hp. induction before as [|u before IH]; cbn [app].
  - rewrite scan_vcl_data_cons, Hd, exact_then_pattern_text, Hp, orb_true_r.
    reflexivity.
  - cbn [forallb] in Hb. apply andb_true_iff in Hb. destruct Hb as [Hu Hb].
    destruct u as [ | | | | |du]; try discriminate.
    rewrite scan_vcl_data_cons. unfold text_unit in Hu.
    destruct (dict_get du (lit "content") (JStr [])) as [ | | |s| | ];
      try discriminate.
    rewrite exact_then_pattern_text.
    destruct (str_contains exact_match s || pattern_found s); auto.
Qed.

(** C3.  [check_snippet] has exactly three outcomes: the present mark
    exactly for status 200, the absent mark exactly for status 404, and
    otherwise (any other status, or no status at all after a transport
    failure) an error string that carries the formatted status and differs
    from both marks.  It never raises. *)
Theorem check_snippet_three_way tok sid ver snip w :
  let ep := snippet_endpoint sid ver snip in
  let r := api (log w) tok ep in
  exists s,
    check_snippet tok sid ver snip w = (Ok s, after_call w tok ep) /\
    (s = present_mark <-> status_code r = Some 200%Z) /\
    (s = absent_mark <-> status_code r = Some 404%Z) /\
    (status_code r <> Some 200%Z -> status_code r <> Some 404%Z ->
     s = lit "Error: " ++ py_str (py_or (payload r) (JStr (lit "Unknown"))) ++
         lit " (Status: " ++ str_status (status_code r) ++ lit ")" /\
     str_contains (str_status (status_code r)) s = true /\
     s <> present_mark /\ s <> absent_mark).
Proof.
  intros ep r.
  unfold check_snippet, bind, make_api_request, ret. cbn [log files].
  fold ep. fold r. fold (after_call w tok ep).
  destruct (status_is 200 r) eqn:E200.
  - apply status_is_spec in E200. exists present_mark.
    split; [reflexivity|]. split; [tauto|]. split.
    + rewrite E200. split; discriminate.
    + intros H. contradiction.
  - destruct (status_is 404 r) eqn:E404.
    + apply status_is_spec in E404. exists absent_mark.
      split; [reflexivity|]. split.
      * rewrite E404. split; discriminate.
      * split; [tauto|]. intros _ H. contradiction.
    + eexists. split; [reflexivity|].
      assert (N200 : status_code r <> Some 200%Z).
      { intros H. apply status_is_spec in H. congruence. }
      assert (N404 : status_code r <> Some 404%Z).
      { intros H. apply status_is_spec in H. congruence. }
      split; [split; [discriminate | contradiction]|].
      split; [split; [discriminate | contradiction]|].
      intros _ _. split; [reflexivity|].
      split; [|split; discriminate].
      rewrite !app_assoc. rewrite <- app_assoc.
      apply str_contains_middle.
Qed.








(** ** Enumerating the services *)

Lemma get_services_loop_step fuel tok cid all page w :
  get_services_loop (S fuel) tok cid all page w =
  if length all <? total_expected then
    let ep := services_endpoint cid page in
    let r := api (log w) tok ep in
    let w1 := after_call w tok ep in
    if page_failed r then (Ok all, w1)
    else match py_iter (page_data r) with
         | Ok items =>
             if length items <? page_size then (Ok (all ++ items), w1)
             else get_services_loop fuel tok cid (all ++ items) (page + 1) w1
         | Raise e => (Raise e, w1)
         | OutOfFuel => (OutOfFuel, w1)
         end
  else (Ok all, w).
Proof.
  cbn [get_services_loop].
  destruct (length all <? total_expected); [|reflexivity].
  unfold bind, make_api_request, lift, ret, after_call, page_failed, page_data.
  cbn [log files fst snd].
  set (r := api (log w) tok (services_endpoint cid page)).
  destruct (negb (truthy (payload r)) || negb (status_is 200 r)); [reflexivity|].
  cbv zeta.
  replace (match payload r with
           | JDict d => dict_get d (lit "data") (JList [])
           | _ => payload r
           end)
    with (match payload r with
          | JDict d => dict_get d (lit "data") (JList [])
          | other => other
          end) by (destruct (payload r); reflexivity).
  destruct (py_iter _) as [items| |]; try reflexivity.
  destruct (length items <? page_size); reflexivity.
Qed.

Lemma get_services_loop_zero tok cid all page w :
  get_services_loop 0 tok cid all page w =
  if length all <? total_expected then (OutOfFuel, w) else (Ok all, w).
Proof.
  cbn [get_services_loop]. destruct (length all <? total_expected); reflexivity.
Qed.

(** The loop only appends page requests to the log and leaves the report
    files alone. *)
Lemma get_services_loop_frame fuel tok cid : forall all page w,
  (exists calls, log (snd (get_services_loop fuel tok cid all page w)) =
                 log w ++ calls) /\
  files (snd (get_services_loop fuel tok cid all page w)) = files w.
Proof.
  induction fuel as [|fuel IH]; intros all page w.
  - rewrite get_services_loop_zero.
    destruct (length all <? total_expected); cbn [snd];
      (split; [exists []; rewrite app_nil_r|]; reflexivity).
  - rewrite get_services_loop_step.
    destruct (length all <? total_expected);
      [|split; [exists []; rewrite app_nil_r|]; reflexivity].
    cbv zeta.
    set (ep := services_endpoint cid page).
    assert (One : (exists calls, log (after_call w tok ep) = log w ++ calls) /\
                  files (after_call w tok ep) = files w).
    { split; [eexists|]; reflexivity. }
    destruct (page_failed _); [exact One|].
    destruct (py_iter _) as [items| |]; try exact One.
    destruct (length items <? page_size); [exact One|].
    destruct (IH (all ++ items) (page + 1)%Z (after_call w tok ep))
      as [[calls Hc] Hf].
    split.
    + rewrite Hc. cbn [after_call log]. rewrite <- app_assoc. eauto.
    + rewrite Hf. reflexivity.
Qed.

(** Five iterations always suffice: every iteration that continues has
    added a full page. *)
Lemma get_services_loop_fuel_enough fuel tok cid : forall all page w,
  total_expected <= length all + page_size * fuel ->
  fst (get_services_loop fuel tok cid all page w) <> OutOfFuel.
Proof.
  unfold total_expected, page_size.
  induction fuel as [|fuel IH]; intros all page w Hb.
  - rewrite get_services_loop_zero.
    destruct (Nat.ltb_spec (length all) total_expected) as [Hlt|Hge];
      unfold total_expected in *; [lia | discriminate].
  - rewrite get_services_loop_step.
    destruct (length all <? total_expected); [|discriminate].
    cbv zeta. destruct (page_failed _); [discriminate|].
    destruct (py_iter (page_data _)) as [items| |] eqn:Ei; try discriminate.
    + destruct (Nat.ltb_spec (length items) page_size) as [Hlt|Hge];
        [discriminate|].
      apply IH. rewrite length_app. unfold page_size in *. lia.
    + destruct (page_data _); discriminate.
Qed.

Lemma get_services_terminates tok cid w :
  fst (get_services tok cid w) <> OutOfFuel.
Proof.
  apply get_services_loop_fuel_enough.
  unfold total_expected, page_size. simpl. lia.
Qed.

Lemma call_not_failed_status r :
  page_failed r = false -> status_code r = Some 200%Z.
Proof.
  unfold page_failed. intros H. apply orb_false_iff in H. destruct H as [_ H].
  apply negb_false_iff in H. apply status_is_spec. assumption.
Qed.

Lemma single_split {A} (pre post : list A) (c c0 : A) :
  [c0] = pre ++ c :: post -> pre = [] /\ c = c0 /\ post = [].
Proof.
  destruct pre as [|x pre]; cbn [app]; intros H.
  - injection H as -> <-. auto.
  - injection H as _ H. destruct pre; discriminate.
Qed.

Lemma get_services_loop_failure fuel tok cid : forall all page w pre c post,
  log (snd (get_services_loop fuel tok cid all page w)) =
    log w ++ pre ++ c :: post ->
  status_code (reply c) <> Some 200%Z ->
  post = [] /\
  fst (get_services_loop fuel tok cid all page w) =
    Ok (all ++ flat_map items_of_call pre).
Proof.
  assert (Nil : forall (l : list call) pre c post,
             l = l ++ pre ++ c :: post -> False).
  { intros l pre c post H. rewrite <- (app_nil_r l) in H at 1.
    apply app_inv_head in H. destruct pre; discriminate. }
  induction fuel as [|fuel IH]; intros all page w pre c post.
  - rewrite get_services_loop_zero.
    destruct (length all <? total_expected); cbn [snd];
      intros H; exfalso; eauto.
  - rewrite get_services_loop_step.
    destruct (length all <? total_expected);
      [|cbn [snd]; intros H; exfalso; eauto].
    cbv zeta.
    set (ep := services_endpoint cid page).
    set (c0 := {| endpoint := ep; reply := api (log w) tok ep |}).
    assert (One : log (after_call w tok ep) = log w ++ pre ++ c :: post ->
                  pre = [] /\ c = c0 /\ post = []).
    { intros H. cbn [after_call log] in H. apply app_inv_head in H.
      apply single_split. exact H. }
    destruct (page_failed (api (log w) tok ep)) eqn:Ef.
    + cbn [fst snd]. intros H _. destruct (One H) as (-> & _ & ->).
      cbn [flat_map]. rewrite app_nil_r. auto.
    + pose proof (call_not_failed_status _ Ef) as Hok.
      destruct (py_iter (page_data _)) as [items| |] eqn:Ei.
      * destruct (length items <? page_size).
        -- cbn [snd]. intros H Hc. destruct (One H) as (_ & -> & _).
           contradiction.
        -- destruct (get_services_loop_frame fuel tok cid (all ++ items)
                       (page + 1)%Z (after_call w tok ep)) as [[calls Hl] _].
           intros H Hc. rewrite Hl in H. cbn [after_call log] in H.
           rewrite <- app_assoc in H. apply app_inv_head in H.
           destruct pre as [|p pre]; cbn [app] in H.
           ++ injection H as <- _. contradiction.
           ++ injection H as <- H. subst calls.
              destruct (IH (all ++ items) (page + 1)%Z (after_call w tok ep)
                          pre c post) as [Hp Hr].
              { rewrite Hl. reflexivity. }
              { exact Hc. }
              assert (Hi : items_of_call c0 = items).
              { unfold items_of_call, c0. cbn [reply]. rewrite Ef, Ei.
                reflexivity. }
              unfold c0 in Hi.
              split; [exact Hp|]. rewrite Hr. cbn [flat_map].
              rewrite Hi, app_assoc. reflexivity.
      * cbn [snd]. intros H Hc. destruct (One H) as (_ & -> & _).
        contradiction.
      * cbn [snd]. intros H Hc. destruct (One H) as (_ & -> & _).
        contradiction.
Qed.

(** The lookups logged by the loop are the page requests, numbered from
    [page] on, each answered by the remote service as it stood then. *)
Lemma get_services_loop_pages fuel tok cid : forall all page w calls,
  log (snd (get_services_loop fuel tok cid all page w)) = log w ++ calls ->
  forall i c, nth_error calls i = Some c ->
    endpoint c = services_endpoint cid (page + Z.of_nat i) /\
    reply c = api (log w ++ firstn i calls) tok (endpoint c).
Proof.
  assert (One : forall w ep calls,
             log (after_call w tok ep) = log w ++ calls ->
             calls = [{| endpoint := ep; reply := api (log w) tok ep |}]).
  { intros w ep calls H. cbn [after_call log] in H.
    apply app_inv_head in H. auto. }
  assert (Single : forall w page calls,
             calls = [{| endpoint := services_endpoint cid page;
                         reply := api (log w) tok (services_endpoint cid page) |}] ->
             forall i c, nth_error calls i = Some c ->
               endpoint c = services_endpoint cid (page + Z.of_nat i) /\
               reply c = api (log w ++ firstn i calls) tok (endpoint c)).
  { intros w page calls -> i c Hn. destruct i as [|i]; cbn in Hn.
    - injection Hn as <-. cbn [endpoint reply firstn Z.of_nat].
      rewrite Z.add_0_r, app_nil_r. auto.
    - destruct i; discriminate. }
  induction fuel as [|fuel IH]; intros all page w calls.
  - rewrite get_services_loop_zero.
    destruct (length all <? total_expected); cbn [snd]; intros H i c Hn;
      rewrite <- (app_nil_r (log w)) in H at 1; apply app_inv_head in H;
      subst calls; destruct i; discriminate.
  - rewrite get_services_loop_step.
    destruct (length all <? total_expected).
    2:{ cbn [snd]. intros H i c Hn.
        rewrite <- (app_nil_r (log w)) in H at 1. apply app_inv_head in H.
        subst calls. destruct i; discriminate. }
    cbv zeta. set (ep := services_endpoint cid page).
    destruct (page_failed _);
      [intros H; apply (Single w page), (One w ep), H|].
    destruct (py_iter _) as [items| |];
      [|intros H; apply (Single w page), (One w ep), H
       |intros H; apply (Single w page), (One w ep), H].
    destruct (length items <? page_size);
      [intros H; apply (Single w page), (One w ep), H|].
    destruct (get_services_loop_frame fuel tok cid (all ++ items)
                (page + 1)%Z (after_call w tok ep)) as [[calls' Hl] _].
    intros H i c Hn. pose proof Hl as Hl'. rewrite H in Hl'.
    cbn [after_call log] in Hl'. rewrite <- app_assoc in Hl'.
    apply app_inv_head in Hl'. subst calls.
    destruct i as [|i]; cbn [nth_error app] in Hn.
    + injection Hn as <-. cbn [endpoint reply firstn Z.of_nat].
      rewrite Z.add_0_r, app_nil_r. auto.
    + destruct (IH (all ++ items) (page + 1)%Z (after_call w tok ep) calls' Hl
                  i c Hn) as [He Hr].
      split.
      * rewrite He. f_equal. lia.
      * rewrite Hr. cbn [after_call log firstn app]. rewrite <- app_assoc.
        reflexivity.
Qed.

(** C6.  When a page request of an enumeration run fails (it came back
    without status, or with a status other than 200), it is the last
    request of the run, and [get_services] returns -- as an ordinary
    result, not as an exception -- the services accumulated from the pages
    fetched before it.  The failed request is the one for the page after
    those. *)
Theorem get_services_stops_on_failure tok cid w pre c post :
  log (snd (get_services tok cid w)) = log w ++ pre ++ c :: post ->
  status_code (reply c) <> Some 200%Z ->
  post = [] /\
  fst (get_services tok cid w) = Ok (flat_map items_of_call pre) /\
  endpoint c = services_endpoint cid (1 + Z.of_nat (length pre)).
Proof.
  intros H Hc.
  destruct (get_services_loop_failure 5 tok cid [] 1%Z w pre c post H Hc)
    as [Hp Hr].
  split; [exact Hp|]. split; [exact Hr|].
  apply (get_services_loop_pages 5 tok cid [] 1%Z w (pre ++ c :: post) H
           (length pre) c).
  rewrite nth_error_app2, Nat.sub_diag by lia. reflexivity.
Qed.

Lemma get_services_loop_full fuel tok cid all page w :
  total_expected <= length all ->
  get_services_loop fuel tok cid all page w = (Ok all, w).
Proof.
  intros H.
  assert (E : (length all <? total_expected) = false)
    by (apply Nat.ltb_ge; exact H).
  destruct fuel.
  - rewrite get_services_loop_zero, E. reflexivity.
  - rewrite get_services_loop_step, E. reflexivity.
Qed.

Lemma get_services_loop_last_page fuel tok cid : forall all page w pre c post,
  log (snd (get_services_loop fuel tok cid all page w)) =
    log w ++ pre ++ c :: post ->
  length (items_of_call c) < page_size \/
  total_expected <= length all + length (flat_map items_of_call (pre ++ [c])) ->
  post = [].
Proof.
  induction fuel as [|fuel IH]; intros all page w pre c post.
  - rewrite get_services_loop_zero.
    destruct (length all <? total_expected); cbn [snd]; intros H _;
      rewrite <- (app_nil_r (log w)) in H at 1; apply app_inv_head in H;
      destruct pre; discriminate.
  - rewrite get_services_loop_step.
    destruct (length all <? total_expected).
    2:{ cbn [snd]. intros H _.
        rewrite <- (app_nil_r (log w)) in H at 1. apply app_inv_head in H.
        destruct pre; discriminate. }
    cbv zeta.
    set (ep := services_endpoint cid page).
    set (c0 := {| endpoint := ep; reply := api (log w) tok ep |}).
    assert (One : log (after_call w tok ep) = log w ++ pre ++ c :: post ->
                  post = []).
    { intros H. cbn [after_call log] in H. apply app_inv_head in H.
      apply single_split in H. tauto. }
    destruct (page_failed (api (log w) tok ep)) eqn:Ef;
      [intros H _; auto|].
    destruct (py_iter (page_data _)) as [items| |] eqn:Ei;
      [|intros H _; auto|intros H _; auto].
    destruct (Nat.ltb_spec (length items) page_size) as [Hlt|Hge];
      [intros H _; auto|].
    assert (Hi : items_of_call c0 = items).
    { unfold items_of_call, c0. cbn [reply]. rewrite Ef, Ei. reflexivity. }
    unfold c0 in Hi.
    destruct (get_services_loop_frame fuel tok cid (all ++ items)
                (page + 1)%Z (after_call w tok ep)) as [[calls Hl] _].
    intros H Hc. pose proof Hl as Hl'. rewrite H in Hl'.
    cbn [after_call log] in Hl'.
    rewrite <- !app_assoc in Hl'. apply app_inv_head in Hl'.
    destruct pre as [|p pre]; cbn [app] in Hl'.
    + injection Hl' as Hc0 Hpost. subst c post. cbn [app flat_map] in Hc.
      rewrite Hi, app_nil_r in Hc. destruct Hc as [Hc | Hc]; [lia|].
      rewrite get_services_loop_full in Hl
        by (rewrite length_app; lia).
      cbn [snd] in Hl. rewrite <- (app_nil_r (log _)) in Hl at 1.
      apply app_inv_head in Hl. auto.
    + injection Hl' as Hp Hl'. subst p.
      apply (IH (all ++ items) (page + 1)%Z (after_call w tok ep) pre c post).
      * rewrite Hl, Hl'. reflexivity.
      * destruct Hc as [Hc | Hc]; [left; exact Hc | right].
        cbn [app flat_map] in Hc. rewrite Hi in Hc.
        rewrite !length_app in *. lia.
Qed.

(** C7.  In every enumeration run, a page request that succeeded and
    brought fewer items than the page size (100) is the last request of the
    run, and so is a page request after which the running total of
    accumulated services has reached the expected count (468). *)
Theorem get_services_stops_on_last_page tok cid w pre c post :
  log (snd (get_services tok cid w)) = log w ++ pre ++ c :: post ->
  (page_failed (reply c) = false /\ length (items_of_call c) < page_size) \/
  total_expected <= length (flat_map items_of_call (pre ++ [c])) ->
  post = [].
Proof.
  intros H Hc.
  apply (get_services_loop_last_page 5 tok cid [] 1%Z w pre c post H).
  cbn [length Nat.add]. tauto.
Qed.

(** ** Resolving and auditing one service *)

Lemma bind_run {A B} (m : M A) (k : A -> M B) w :
  bind m k w =
  match m w with
  | (Ok a, w') => k a w'
  | (Raise e, w') => (Raise e, w')
  | (OutOfFuel, w') => (OutOfFuel, w')
  end.
Proof. reflexivity. Qed.

Lemma get_service_details_world tok sid w :
  snd (get_service_details tok sid w) = after_call w tok (details_endpoint sid).
Proof.
  unfold get_service_details, bind, make_api_request, lift, ret, after_call.
  cbn [log files].
  destruct (truthy _ && status_is 200 _); [|reflexivity].
  destruct (payload _); reflexivity.
Qed.

Lemma get_service_details_failed tok sid w :
  status_code (api (log w) tok (details_endpoint sid)) <> Some 200%Z ->
  get_service_details tok sid w =
  (Ok {| name := JStr (lit "Unnamed Service"); active_version := lit "Unknown" |},
   after_call w tok (details_endpoint sid)).
Proof.
  intros H.
  unfold get_service_details, bind, make_api_request, lift, ret, after_call.
  cbn [log files]. rewrite (status_is_false _ _ H), andb_false_r. reflexivity.
Qed.

Lemma check_snippet_returns tok sid ver snip w :
  exists s, check_snippet tok sid ver snip w =
            (Ok s, after_call w tok (snippet_endpoint sid ver snip)).
Proof.
  unfold check_snippet, bind, make_api_request, ret, after_call.
  cbn [log files].
  destruct (status_is 200 _); [eauto|].
  destruct (status_is 404 _); eauto.
Qed.

Lemma check_client_challenge_world tok sid ver w :
  let w1 := after_call w tok (vcl_endpoint sid ver) in
  exists calls,
    log (snd (check_client_challenge tok sid ver w)) = log w1 ++ calls /\
    files (snd (check_client_challenge tok sid ver w)) = files w /\
    fst (check_client_challenge tok sid ver w) <> OutOfFuel.
Proof.
  intros w1. rewrite check_client_challenge_run. fold w1.
  assert (Hl : forall l, scan_vcl_data l <> OutOfFuel).
  { induction l as [|u l IH]; [discriminate|].
    destruct u; try discriminate. rewrite scan_vcl_data_cons.
    unfold exact_then_pattern.
    destruct (dict_get _ _ _); cbn; try discriminate;
      repeat match goal with
             | |- context [if ?b then _ else _] => destruct b
             | |- context [match ?b with true => _ | false => _ end] => destruct b
             end; try discriminate; try exact IH. }
  assert (Hs : scan_listing (api (log w) tok (vcl_endpoint sid ver)) <> OutOfFuel).
  { unfold scan_listing. destruct (status_is 200 _); [|discriminate].
    destruct (payload _); try discriminate. apply Hl. }
  destruct (scan_listing _) as [[|]| |] eqn:E; cbn [fst snd].
  - exists []. rewrite app_nil_r. repeat split. discriminate.
  - eexists. split; [reflexivity|]. split; [reflexivity|].
    unfold scan_blob. destruct (status_is 200 _); [|discriminate].
    destruct (payload _); try discriminate.
    unfold exact_then_pattern.
    destruct (dict_get _ _ _); cbn; try discriminate;
      repeat match goal with
             | |- context [if ?b then _ else _] => destruct b
             | |- context [match ?b with true => _ | false => _ end] => destruct b
             end; discriminate.
  - exists []. rewrite app_nil_r. repeat split. discriminate.
  - contradiction.
Qed.

Lemma audit_service_no_scan tok f s w det :
  let sid := dict_get s (lit "id") JNull in
  truthy sid = true ->
  fst (get_service_details tok sid w) = Ok det ->
  version_usable (active_version det) = false ->
  audit_service tok f (JDict s) w =
  writerow f (unscanned_row det sid) (after_call w tok (details_endpoint sid)).
Proof.
  intros sid Hid Hdet Hv.
  unfold audit_service. fold sid. rewrite Hid. cbn [negb].
  rewrite bind_run.
  pose proof (get_service_details_world tok sid w) as Hw.
  destruct (get_service_details tok sid w) as [res w1].
  cbn [fst snd] in Hdet, Hw. subst res w1.
  rewrite Hv. reflexivity.
Qed.

Lemma audit_service_scans tok f s w det :
  let sid := dict_get s (lit "id") JNull in
  truthy sid = true ->
  fst (get_service_details tok sid w) = Ok det ->
  version_usable (active_version det) = true ->
  let v := active_version det in
  let w1 := after_call w tok (details_endpoint sid) in
  let w2 := after_call w1 tok (snippet_endpoint sid v (lit "ngwaf_config_init")) in
  let w3 := after_call w2 tok (vcl_endpoint sid v) in
  exists calls, log (snd (audit_service tok f (JDict s) w)) = log w3 ++ calls.
Proof.
  intros sid Hid Hdet Hv v w1 w2 w3.
  unfold audit_service. fold sid. rewrite Hid. cbn [negb].
  rewrite bind_run.
  pose proof (get_service_details_world tok sid w) as Hw.
  destruct (get_service_details tok sid w) as [res w1'].
  cbn [fst snd] in Hdet, Hw. subst res w1'. fold w1.
  rewrite Hv. fold v.
  destruct (check_snippet_returns tok sid v (lit "ngwaf_config_init") w1)
    as [waf Hwaf].
  rewrite !bind_run, Hwaf. cbv beta iota. rewrite bind_run. fold w2.
  destruct (check_client_challenge_world tok sid v w2) as (calls & Hl & _ & _).
  fold w3 in Hl.
  destruct (check_client_challenge tok sid v w2) as [[cc| |] w4];
    cbn [fst snd] in *; eauto.
Qed.

Lemma pystr_eqb_spec a b : pystr_eqb a b = true <-> a = b.
Proof.
  unfold pystr_eqb. destruct (list_eq_dec N.eq_dec a b); split;
    congruence.
Qed.

Lemma pystr_eqb_refl a : pystr_eqb a a = true.
Proof. apply pystr_eqb_spec. reflexivity. Qed.

Lemma version_usable_spec v :
  version_usable v = true <-> v <> [] /\ v <> lit "None" /\ v <> lit "Unknown".
Proof.
  unfold version_usable. rewrite !andb_true_iff, !negb_true_iff.
  assert (E : forall a b, pystr_eqb a b = false <-> a <> b).
  { intros a b. rewrite <- pystr_eqb_spec. destruct (pystr_eqb a b); split;
      congruence. }
  rewrite !E. destruct v; cbn [truthy]; intuition congruence.
Qed.

(** C8.  When the metadata lookup of a service fails (no status, or a
    status other than 200), [get_service_details] returns the name
    ["Unnamed Service"] and the version ["Unknown"] as an ordinary result,
    and the audit of that service makes no further lookup: the details
    request is the only one, and the row is written with the defaults. *)
Theorem failed_details_degrade tok sid w :
  let ep := details_endpoint sid in
  let r := api (log w) tok ep in
  status_code r <> Some 200%Z ->
  get_service_details tok sid w =
    (Ok {| name := JStr (lit "Unnamed Service"); active_version := lit "Unknown" |},
     after_call w tok ep) /\
  (forall f s,
      dict_get s (lit "id") JNull = sid -> truthy sid = true ->
      fst (audit_service tok f (JDict s) w) = Ok tt /\
      log (snd (audit_service tok f (JDict s) w)) =
        log w ++ [{| endpoint := ep; reply := r |}] /\
      rows_in (snd (audit_service tok f (JDict s) w)) f =
        rows_in w f ++
        [[JStr (lit "Unnamed Service"); sid; JStr (lit "Unknown");
          JStr (lit "No active version"); JStr (lit "False")]]).
Proof.
  intros ep r H.
  pose proof (get_service_details_failed tok sid w H) as Hd.
  split; [exact Hd|].
  intros f s Hs Hid. subst sid.
  rewrite (audit_service_no_scan tok f s w _ Hid (f_equal fst Hd) eq_refl).
  unfold writerow, rows_in, unscanned_row, after_call.
  cbn [fst snd log files name active_version].
  rewrite pystr_eqb_refl. auto.
Qed.

Lemma get_service_details_falsy_version tok sid w d v :
  let r := api (log w) tok (details_endpoint sid) in
  status_code r = Some 200%Z ->
  payload r = JDict d ->
  assoc (lit "active_version") d = Some v ->
  is_dict v = false ->
  truthy v = false ->
  get_service_details tok sid w =
    (Ok {| name := dict_get d (lit "name") (JStr (lit "Unnamed Service"));
           active_version := lit "None" |},
     after_call w tok (details_endpoint sid)).
Proof.
  intros r Hst Hp Ha Hv Hf.
  unfold get_service_details, bind, make_api_request, lift, ret, after_call.
  cbn [log files]. fold r. apply status_is_spec in Hst. rewrite Hst, Hp.
  assert (Hd : truthy (JDict d) = true) by (destruct d; [discriminate|reflexivity]).
  rewrite Hd. cbn [andb]. unfold dict_get. rewrite Ha.
  unfold py_or. rewrite Hf.
  destruct v; try discriminate; reflexivity.
Qed.

(** C10.  When the metadata lookup succeeds and its [active_version] field
    is a bare falsy value (null, 0, an empty string, false, an empty list)
    rather than a mapping, [get_service_details] reports the version
    ["None"], and the audit of that service makes no further lookup: the
    scanner is not invoked although the response carried a version
    value. *)
Theorem falsy_active_version_is_none tok sid w d v :
  let ep := details_endpoint sid in
  let r := api (log w) tok ep in
  status_code r = Some 200%Z ->
  payload r = JDict d ->
  assoc (lit "active_version") d = Some v ->
  is_dict v = false ->
  truthy v = false ->
  get_service_details tok sid w =
    (Ok {| name := dict_get d (lit "name") (JStr (lit "Unnamed Service"));
           active_version := lit "None" |},
     after_call w tok ep) /\
  (forall f s,
      dict_get s (lit "id") JNull = sid -> truthy sid = true ->
      fst (audit_service tok f (JDict s) w) = Ok tt /\
      log (snd (audit_service tok f (JDict s) w)) =
        log w ++ [{| endpoint := ep; reply := r |}] /\
      rows_in (snd (audit_service tok f (JDict s) w)) f =
        rows_in w f ++
        [[dict_get d (lit "name") (JStr (lit "Unnamed Service")); sid;
          JStr (lit "None"); JStr (lit "No active version");
          JStr (lit "False")]]).
Proof.
  intros ep r Hst Hp Ha Hv Hf.
  pose proof (get_service_details_falsy_version tok sid w d v Hst Hp Ha Hv Hf)
    as Hd.
  split; [exact Hd|].
  intros f s Hs Hid. subst sid.
  rewrite (audit_service_no_scan tok f s w _ Hid (f_equal fst Hd) eq_refl).
  unfold writerow, rows_in, unscanned_row, after_call.
  cbn [fst snd log files name active_version].
  rewrite pystr_eqb_refl. auto.
Qed.

(** C5 (as amended).  For a processed service the scanner is invoked
    exactly when the resolved version string passes the guard of [main]:
    it is not empty, not ["None"] and not ["Unknown"].  When it passes, the
    snippet lookup and the VCL listing lookup follow the details lookup.
    When it does not, the details lookup is the only one, the WAF-status
    field of the row is the sentinel ["No active version"] and the
    challenge-enabled field is [False]. *)
Theorem scanner_gated_by_version tok f s w det :
  let sid := dict_get s (lit "id") JNull in
  truthy sid = true ->
  fst (get_service_details tok sid w) = Ok det ->
  let v := active_version det in
  let w1 := after_call w tok (details_endpoint sid) in
  let w2 := after_call w1 tok (snippet_endpoint sid v (lit "ngwaf_config_init")) in
  let w3 := after_call w2 tok (vcl_endpoint sid v) in
  (version_usable v = true <->
   v <> [] /\ v <> lit "None" /\ v <> lit "Unknown") /\
  (version_usable v = true ->
   exists calls, log (snd (audit_service tok f (JDict s) w)) = log w3 ++ calls) /\
  (version_usable v = false ->
   fst (audit_service tok f (JDict s) w) = Ok tt /\
   log (snd (audit_service tok f (JDict s) w)) = log w1 /\
   rows_in (snd (audit_service tok f (JDict s) w)) f =
     rows_in w f ++
     [[name det; sid; JStr v; JStr (lit "No active version"); JStr (lit "False")]]).
Proof.
  intros sid Hid Hdet v w1 w2 w3.
  split; [apply version_usable_spec|]. split.
  - intros Hv. exact (audit_service_scans tok f s w det Hid Hdet Hv).
  - intros Hv. rewrite (audit_service_no_scan tok f s w det Hid Hdet Hv).
    unfold writerow, rows_in, unscanned_row, after_call.
    cbn [fst snd log files]. rewrite pystr_eqb_refl. auto.
Qed.

(** ** Writing the report *)

Lemma get_service_details_returns tok sid w :
  fst (get_service_details tok sid w) <> OutOfFuel.
Proof.
  unfold get_service_details, bind, make_api_request, lift, ret.
  cbn [log files].
  destruct (truthy _ && status_is 200 _); [|discriminate].
  destruct (payload _); discriminate.
Qed.

(** The audit of one service either writes one row or raises; in both
    cases it only adds lookups to the log and leaves the files as they
    were up to that row. *)
Lemma audit_service_cases tok f s w :
  truthy (dict_get s (lit "id") JNull) = true ->
  exists w',
    files w' = files w /\
    (exists extra, log w' = log w ++ extra) /\
    ((exists row, row_id row = dict_get s (lit "id") JNull /\
                  audit_service tok f (JDict s) w = writerow f row w') \/
     (exists e, audit_service tok f (JDict s) w = (Raise e, w'))).
Proof.
  intros Hid. set (sid := dict_get s (lit "id") JNull) in *.
  unfold audit_service. fold sid. rewrite Hid. cbn [negb].
  rewrite bind_run.
  pose proof (get_service_details_world tok sid w) as Hw.
  pose proof (get_service_details_returns tok sid w) as Hr.
  destruct (get_service_details tok sid w) as [[det|e|] w1];
    cbn [fst snd] in Hw, Hr; subst w1; [| |contradiction].
  2:{ exists (after_call w tok (details_endpoint sid)).
      split; [reflexivity|]. split; [eexists; reflexivity|].
      right. eauto. }
  set (w1 := after_call w tok (details_endpoint sid)).
  destruct (version_usable (active_version det)).
  - destruct (check_snippet_returns tok sid (active_version det)
                (lit "ngwaf_config_init") w1) as [waf Hwaf].
    rewrite !bind_run, Hwaf. cbv beta iota. rewrite bind_run.
    set (w2 := after_call w1 tok _).
    destruct (check_client_challenge_world tok sid (active_version det) w2)
      as (calls & Hl & Hf & Hn).
    destruct (check_client_challenge tok sid (active_version det) w2)
      as [[cc|e|] w3]; cbn [fst snd] in Hl, Hf, Hn; [| |contradiction].
    + exists w3. split; [exact Hf|]. split.
      * exists ([{| endpoint := details_endpoint sid;
                    reply := api (log w) tok (details_endpoint sid) |};
                 {| endpoint := snippet_endpoint sid (active_version det)
                                  (lit "ngwaf_config_init");
                    reply := api (log w1) tok
                               (snippet_endpoint sid (active_version det)
                                  (lit "ngwaf_config_init")) |};
                 {| endpoint := vcl_endpoint sid (active_version det);
                    reply := api (log w2) tok
                               (vcl_endpoint sid (active_version det)) |}]
                  ++ calls).
        rewrite Hl. cbn [after_call log w2 w1]. rewrite <- !app_assoc.
        reflexivity.
      * left. eexists. split; [|reflexivity]. reflexivity.
    + exists w3. split; [exact Hf|]. split.
      * exists ([{| endpoint := details_endpoint sid;
                    reply := api (log w) tok (details_endpoint sid) |};
                 {| endpoint := snippet_endpoint sid (active_version det)
                                  (lit "ngwaf_config_init");
                    reply := api (log w1) tok
                               (snippet_endpoint sid (active_version det)
                                  (lit "ngwaf_config_init")) |};
                 {| endpoint := vcl_endpoint sid (active_version det);
                    reply := api (log w2) tok
                               (vcl_endpoint sid (active_version det)) |}]
                  ++ calls).
        rewrite Hl. cbn [after_call log w2 w1]. rewrite <- !app_assoc.
        reflexivity.
      * right. eauto.
  - exists w1. split; [reflexivity|]. split; [eexists; reflexivity|].
    left. eexists. split; [|reflexivity]. reflexivity.
Qed.

Lemma writerow_rows f row w :
  rows_in (snd (writerow f row w)) f = rows_in w f ++ [row].
Proof.
  unfold writerow, rows_in. cbn [snd files]. rewrite pystr_eqb_refl.
  reflexivity.
Qed.

Lemma writerow_other f row w g :
  pystr_eqb g f = false -> files (snd (writerow f row w)) g = files w g.
Proof.
  intros H. unfold writerow. cbn [snd files]. rewrite H. reflexivity.
Qed.

Lemma audit_service_effect tok f svc w :
  let w' := snd (audit_service tok f svc w) in
  (forall g, pystr_eqb g f = false -> files w' g = files w g) /\
  (exists extra, log w' = log w ++ extra) /\
  (fst (audit_service tok f svc w) = Ok tt ->
   exists new, rows_in w' f = rows_in w f ++ new /\
               map row_id new =
               if usable_id svc then [service_id_of svc] else []).
Proof.
  intros w'. subst w'.
  assert (Same : (forall g, pystr_eqb g f = false -> files w g = files w g) /\
                 (exists extra, log w = log w ++ extra)).
  { split; [reflexivity|]. exists []. rewrite app_nil_r. reflexivity. }
  destruct svc as [ | | | | |s];
    try (cbn [audit_service lift fst snd]; destruct Same; repeat split; auto;
         discriminate).
  cbn [usable_id].
  destruct (truthy (dict_get s (lit "id") JNull)) eqn:Hid.
  - destruct (audit_service_cases tok f s w Hid)
      as (w1 & Hf & Hl & [[row [Hrow Hr]] | [e Hr]]); rewrite Hr.
    + split; [|split].
      * intros g Hg. rewrite (writerow_other f row w1 g Hg), Hf. reflexivity.
      * exact Hl.
      * intros _. exists [row]. rewrite writerow_rows. unfold rows_in.
        rewrite Hf. cbn [map service_id_of]. rewrite Hrow. auto.
    + cbn [fst snd]. split; [|split].
      * intros g _. rewrite Hf. reflexivity.
      * exact Hl.
      * discriminate.
  - unfold audit_service. rewrite Hid. cbn [negb ret fst snd].
    destruct Same. repeat split; auto.
    intros _. exists []. rewrite app_nil_r. auto.
Qed.

Lemma for_each_cons {A} (x : A) xs body w :
  for_each (x :: xs) body w =
  match body x w with
  | (Ok _, w') => for_each xs body w'
  | (Raise e, w') => (Raise e, w')
  | (OutOfFuel, w') => (OutOfFuel, w')
  end.
Proof. reflexivity. Qed.

Lemma for_each_audit_effect tok f : forall services w,
  let w' := snd (for_each services (audit_service tok f) w) in
  (forall g, pystr_eqb g f = false -> files w' g = files w g) /\
  (exists extra, log w' = log w ++ extra) /\
  (fst (for_each services (audit_service tok f) w) = Ok tt ->
   exists new, rows_in w' f = rows_in w f ++ new /\
               map row_id new = map service_id_of (filter usable_id services)).
Proof.
  induction services as [|svc services IH]; intros w; cbv zeta.
  - cbn [for_each ret fst snd]. split; [reflexivity|]. split.
    + exists []. rewrite app_nil_r. reflexivity.
    + intros _. exists []. rewrite app_nil_r. auto.
  - rewrite for_each_cons.
    destruct (audit_service_effect tok f svc w) as (Hg & [ex1 Hl] & Hrows).
    destruct (audit_service tok f svc w) as [[[]|e|] w1]; cbn [fst snd] in *.
    + destruct (IH w1) as (Hg' & [ex2 Hl'] & Hrows').
      split; [|split].
      * intros g H. rewrite (Hg' g H). auto.
      * exists (ex1 ++ ex2). rewrite Hl', Hl, app_assoc. reflexivity.
      * intros Hok. destruct (Hrows eq_refl) as (n1 & E1 & L1).
        destruct (Hrows' Hok) as (n2 & E2 & L2).
        exists (n1 ++ n2). rewrite E2, E1, app_assoc. split; [reflexivity|].
        rewrite map_app, L1, L2. cbn [filter].
        destruct (usable_id svc); reflexivity.
    + split; [exact Hg|]. split; [eauto|discriminate].
    + split; [exact Hg|]. split; [eauto|discriminate].
Qed.

Lemma write_report_run tok services f w :
  write_report tok services f w =
  for_each services (audit_service tok f)
           (snd (writerow f header (snd (open_w f w)))).
Proof. reflexivity. Qed.

Lemma write_report_effect tok services f w :
  let w' := snd (write_report tok services f w) in
  (forall g, pystr_eqb g f = false -> files w' g = files w g) /\
  (exists extra, log w' = log w ++ extra) /\
  (fst (write_report tok services f w) = Ok tt ->
   exists rows, rows_in w' f = header :: rows /\
                map row_id rows = map service_id_of (filter usable_id services)).
Proof.
  rewrite write_report_run.
  set (w0 := snd (writerow f header (snd (open_w f w)))).
  destruct (for_each_audit_effect tok f services w0) as (Hg & Hl & Hrows).
  split; [|split].
  - intros g H. rewrite (Hg g H). unfold w0, writerow, open_w.
    cbn [snd files]. rewrite !H. reflexivity.
  - exact Hl.
  - intros Hok. destruct (Hrows Hok) as (new & E & L).
    exists new. rewrite E. split; [|exact L].
    unfold rows_in, w0, writerow, open_w. cbn [snd files].
    rewrite !pystr_eqb_refl. reflexivity.
Qed.

Lemma report_files_differ ts :
  pystr_eqb (report_file ts) fixed_report_file = false.
Proof.
  destruct (pystr_eqb (report_file ts) fixed_report_file) eqn:E; [|reflexivity].
  apply pystr_eqb_spec in E. discriminate.
Qed.

Lemma main_run tok cid ts w :
  main tok cid ts w =
  match get_services tok cid w with
  | (Ok services, w0) =>
      if negb (truthy (JList services)) then (Ok tt, w0)
      else
        match write_report tok services (report_file ts) w0 with
        | (Ok _, w1) =>
            match write_report tok services fixed_report_file w1 with
            | (Ok _, w2) => (Ok tt, w2)
            | (Raise e, w2) => (Raise e, w2)
            | (OutOfFuel, w2) => (OutOfFuel, w2)
            end
        | (Raise e, w1) => (Raise e, w1)
        | (OutOfFuel, w1) => (OutOfFuel, w1)
        end
  | (Raise e, w0) => (Raise e, w0)
  | (OutOfFuel, w0) => (OutOfFuel, w0)
  end.
Proof.
  unfold main. rewrite bind_run.
  destruct (get_services tok cid w) as [[services|e|] w0]; try reflexivity.
  destruct (negb (truthy (JList services))); [reflexivity|].
  rewrite !for_each_cons.
  destruct (write_report tok services (report_file ts) w0) as [[[]|e|] w1];
    reflexivity.
Qed.










(** ** Further properties: configuration *)

(** X1.  [load_config] returns a pair exactly when the decoded
    configuration is a mapping whose [api_token] and [customer_id] are both
    present and truthy, and the pair holds those two values.  Whenever it
    exits, the exit status is 1: for a missing file, an undecodable file,
    and a missing or empty field.  The one exception that escapes is the
    [AttributeError] of a configuration that is not a mapping. *)
Theorem load_config_outcome src :
  (forall t c,
      load_config src = Loaded (t, c) <->
      exists cfg, src = ConfigParsed (JDict cfg) /\
                  dict_get cfg (lit "api_token") JNull = t /\
                  dict_get cfg (lit "customer_id") JNull = c /\
                  truthy t = true /\ truthy c = true) /\
  (forall n, load_config src = SystemExit n -> n = 1%Z) /\
  (src = ConfigMissing \/ src = ConfigInvalid -> load_config src = SystemExit 1) /\
  (forall cfg,
      src = ConfigParsed (JDict cfg) ->
      assoc (lit "api_token") cfg = None \/ assoc (lit "customer_id") cfg = None ->
      load_config src = SystemExit 1) /\
  (forall e,
      load_config src = Uncaught e <->
      e = AttributeError /\
      exists config, src = ConfigParsed config /\ is_dict config = false).
Proof.
  split; [|split; [|split; [|split]]].
  - intros t c. split.
    + destruct src as [ | |config]; try discriminate.
      destruct config as [ | | | | |cfg]; try discriminate.
      cbn [load_config].
      destruct (truthy (dict_get cfg (lit "api_token") JNull)) eqn:Et;
        [|discriminate].
      destruct (truthy (dict_get cfg (lit "customer_id") JNull)) eqn:Ec;
        [|discriminate].
      cbn [negb orb]. intros H. injection H as <- <-.
      exists cfg. auto.
    + intros (cfg & -> & <- & <- & Ht & Hc). cbn [load_config].
      rewrite Ht, Hc. reflexivity.
  - intros n. destruct src as [ | |config]; cbn [load_config];
      try (intros H; injection H as <-; reflexivity).
    destruct config; try discriminate.
    destruct (negb _ || negb _); [|discriminate].
    intros H. injection H as <-. reflexivity.
  - intros [-> | ->]; reflexivity.
  - intros cfg -> [H | H]; cbn [load_config]; unfold dict_get; rewrite H;
      cbn [truthy negb orb]; [reflexivity|].
    rewrite orb_true_r. reflexivity.
  - intros e. split.
    + destruct src as [ | |config]; try discriminate.
      destruct config; cbn [load_config];
        try (intros H; injection H as <-; split; [reflexivity|];
             eexists; split; reflexivity).
      destruct (negb _ || negb _); discriminate.
    + intros (-> & config & -> & Hd). destruct config; try discriminate;
        reflexivity.
Qed.

(** ** Further properties: enumeration *)

Lemma get_services_loop_summary fuel tok cid : forall all page w,
  exists calls,
    log (snd (get_services_loop fuel tok cid all page w)) = log w ++ calls /\
    length calls <= fuel /\
    (length all < total_expected -> 0 < fuel -> 1 <= length calls) /\
    (forall l, fst (get_services_loop fuel tok cid all page w) = Ok l ->
               l = all ++ flat_map items_of_call calls) /\
    (forall e, fst (get_services_loop fuel tok cid all page w) = Raise e ->
               e = TypeError).
Proof.
  induction fuel as [|fuel IH]; intros all page w.
  - rewrite get_services_loop_zero. exists [].
    destruct (length all <? total_expected); cbn [fst snd length flat_map];
      rewrite !app_nil_r; repeat split; try lia; try discriminate.
    intros l H. injection H as <-. cbn [app]. rewrite ?app_nil_r. reflexivity.
  - rewrite get_services_loop_step.
    destruct (Nat.ltb_spec (length all) total_expected) as [Hlt|Hge].
    2:{ exists []. cbn [fst snd length flat_map]. rewrite !app_nil_r.
        repeat split; try lia; try discriminate.
        intros l H. injection H as <-. cbn [app]. rewrite ?app_nil_r. reflexivity. }
    cbv zeta. set (ep := services_endpoint cid page).
    set (c0 := {| endpoint := ep; reply := api (log w) tok ep |}).
    destruct (page_failed (api (log w) tok ep)) eqn:Ef.
    { exists [c0]. cbn [fst snd length flat_map after_call log].
      unfold items_of_call. cbn [reply c0]. rewrite Ef.
      repeat split; try lia; try discriminate.
      intros l H. injection H as <-. cbn [app]. rewrite ?app_nil_r. reflexivity. }
    destruct (py_iter (page_data (api (log w) tok ep))) as [items|e|] eqn:Ei.
    + destruct (length items <? page_size).
      * exists [c0]. cbn [fst snd length flat_map after_call log].
        unfold items_of_call. cbn [reply c0]. rewrite Ef, Ei.
        repeat split; try lia; try discriminate.
        intros l H. injection H as <-. cbn [app]. rewrite ?app_nil_r. reflexivity.
      * destruct (IH (all ++ items) (page + 1)%Z (after_call w tok ep))
          as (calls & Hl & Hn & _ & Hok & Hraise).
        exists (c0 :: calls). rewrite Hl. cbn [after_call log length flat_map].
        rewrite <- app_assoc. split; [reflexivity|].
        split; [lia|]. split; [lia|]. split; [|exact Hraise].
        intros l H. rewrite (Hok l H).
        unfold items_of_call at 2. cbn [reply c0]. rewrite Ef, Ei.
        rewrite app_assoc. reflexivity.
    + exists [c0]. cbn [fst snd length flat_map after_call log].
      repeat split; try lia; try discriminate.
      intros e' H. injection H as <-.
      destruct (page_data _); cbn [py_iter] in Ei; congruence.
    + destruct (page_data _); discriminate.
Qed.

(** X2.  Every enumeration run returns, after at least one and at most
    five page requests; the requests are for the pages 1, 2, ... in order,
    each answered by the remote service as it stood at that moment, and the
    report files are not touched. *)
Theorem get_services_request_bounds tok cid w :
  exists calls,
    log (snd (get_services tok cid w)) = log w ++ calls /\
    1 <= length calls <= 5 /\
    fst (get_services tok cid w) <> OutOfFuel /\
    files (snd (get_services tok cid w)) = files w /\
    (forall i c, nth_error calls i = Some c ->
       endpoint c = services_endpoint cid (1 + Z.of_nat i) /\
       reply c = api (log w ++ firstn i calls) tok (endpoint c)).
Proof.
  destruct (get_services_loop_summary 5 tok cid [] 1%Z w)
    as (calls & Hl & Hle & Hge & _).
  exists calls. split; [exact Hl|]. split.
  - split; [|exact Hle]. apply Hge; [unfold total_expected; cbn; lia | lia].
  - split; [apply get_services_terminates|]. split.
    + apply (get_services_loop_frame 5 tok cid [] 1%Z w).
    + apply (get_services_loop_pages 5 tok cid [] 1%Z w calls Hl).
Qed.

(** X3.  What an enumeration run returns is the concatenation, in page
    order, of what each requested page contributed; the only exception it
    can raise is the [TypeError] of a page whose data cannot be iterated. *)
Theorem get_services_result tok cid w :
  exists calls,
    log (snd (get_services tok cid w)) = log w ++ calls /\
    (forall l, fst (get_services tok cid w) = Ok l ->
               l = flat_map items_of_call calls) /\
    (forall e, fst (get_services tok cid w) = Raise e -> e = TypeError).
Proof.
  destruct (get_services_loop_summary 5 tok cid [] 1%Z w)
    as (calls & Hl & _ & _ & Hok & Hraise).
  exists calls. split; [exact Hl|]. split; [exact Hok | exact Hraise].
Qed.

(** ** Further properties: resolving a service *)

Lemma get_service_details_run tok sid w :
  get_service_details tok sid w =
  (details_of (api (log w) tok (details_endpoint sid)),
   after_call w tok (details_endpoint sid)).
Proof.
  unfold get_service_details, details_of, bind, make_api_request, lift, ret,
    after_call.
  cbn [log files].
  destruct (truthy _ && status_is 200 _); [|reflexivity].
  destruct (payload _); reflexivity.
Qed.

Lemma check_snippet_run tok sid ver snip w :
  check_snippet tok sid ver snip w =
  (Ok (snippet_status (api (log w) tok (snippet_endpoint sid ver snip))),
   after_call w tok (snippet_endpoint sid ver snip)).
Proof.
  unfold check_snippet, snippet_status, bind, make_api_request, ret, after_call.
  cbn [log files].
  destruct (status_is 200 _); [reflexivity|].
  destruct (status_is 404 _); reflexivity.
Qed.

(** [str(n)] starts with a digit or a minus sign. *)
Lemma str_int_head z :
  exists c rest, str_int z = c :: rest /\ (c = 45 \/ 48 <= c <= 57)%N.
Proof.
  unfold str_int. destruct (Z.to_int z) as [d|d]; cbn.
  - destruct d; cbn; eexists; eexists; (split; [reflexivity|]); lia.
  - eexists; eexists; (split; [reflexivity|]); lia.
Qed.

Lemma str_int_usable z : version_usable (str_int z) = true.
Proof.
  apply version_usable_spec.
  destruct (str_int_head z) as (c & rest & E & Hc). rewrite E.
  repeat split; intros H; try discriminate;
    injection H as Hh _; subst c; lia.
Qed.

(** X4.  When the metadata lookup succeeds with a mapping whose
    [active_version] is itself a mapping with an integer [number],
    [get_service_details] reports that number in decimal, and this version
    always passes the guard of [main] -- for every integer, 0 included. *)
Theorem structured_version_is_usable tok sid w d av n :
  let r := api (log w) tok (details_endpoint sid) in
  status_code r = Some 200%Z ->
  payload r = JDict d ->
  assoc (lit "active_version") d = Some (JDict av) ->
  assoc (lit "number") av = Some (JNum n) ->
  fst (get_service_details tok sid w) =
    Ok {| name := dict_get d (lit "name") (JStr (lit "Unnamed Service"));
          active_version := str_int n |} /\
  version_usable (str_int n) = true.
Proof.
  intros r Hst Hp Ha Hn. split; [|apply str_int_usable].
  rewrite get_service_details_run. cbn [fst]. fold r.
  unfold details_of. apply status_is_spec in Hst. rewrite Hst, Hp.
  assert (Hd : truthy (JDict d) = true) by (destruct d; [discriminate|reflexivity]).
  rewrite Hd. cbn [andb]. unfold dict_get. rewrite Ha, Hn. reflexivity.
Qed.

(** X5.  When the metadata lookup succeeds with a non-empty mapping that
    has no [active_version] key, or whose [active_version] is a mapping
    without a [number] or with a null [number], the reported version is
    ["None"]; the name falls back to ["Unnamed Service"] when the [name]
    key is missing. *)
Theorem missing_version_is_none tok sid w d :
  let r := api (log w) tok (details_endpoint sid) in
  status_code r = Some 200%Z ->
  payload r = JDict d ->
  d <> [] ->
  (assoc (lit "active_version") d = None \/
   exists av, assoc (lit "active_version") d = Some (JDict av) /\
              (assoc (lit "number") av = None \/
               assoc (lit "number") av = Some JNull)) ->
  fst (get_service_details tok sid w) =
    Ok {| name := match assoc (lit "name") d with
                  | Some n => n
                  | None => JStr (lit "Unnamed Service")
                  end;
          active_version := lit "None" |} /\
  version_usable (lit "None") = false.
Proof.
  intros r Hst Hp Hd Hv. split; [|reflexivity].
  rewrite get_service_details_run. cbn [fst]. fold r.
  unfold details_of. apply status_is_spec in Hst. rewrite Hst, Hp.
  assert (Ht : truthy (JDict d) = true) by (destruct d; [congruence|reflexivity]).
  rewrite Ht. cbn [andb]. unfold dict_get.
  destruct Hv as [Ha | (av & Ha & [Hn | Hn])]; rewrite Ha; try rewrite Hn;
    reflexivity.
Qed.

(** X6.  [get_service_details] raises exactly when the lookup came back
    with status 200 and a truthy payload that is not a mapping, and then it
    is an [AttributeError]; a falsy payload with status 200 (an empty
    mapping, an empty list, null) is handled like a failed lookup. *)
Theorem get_service_details_odd_payloads tok sid w :
  let r := api (log w) tok (details_endpoint sid) in
  (forall e,
      fst (get_service_details tok sid w) = Raise e <->
      e = AttributeError /\ status_code r = Some 200%Z /\
      truthy (payload r) = true /\ is_dict (payload r) = false) /\
  (truthy (payload r) = false ->
   fst (get_service_details tok sid w) =
     Ok {| name := JStr (lit "Unnamed Service"); active_version := lit "Unknown" |}).
Proof.
  intros r. rewrite get_service_details_run. cbn [fst]. fold r.
  unfold details_of. split.
  - intros e. destruct (truthy (payload r)) eqn:Et; cbn [andb].
    + destruct (status_is 200 r) eqn:Es.
      * apply status_is_spec in Es.
        destruct (payload r); split; try discriminate;
          try (intros H; injection H as <-; auto);
          try (intros (_ & _ & _ & H); discriminate);
          intros (-> & _); reflexivity.
      * split; [discriminate|]. intros (_ & H & _).
        apply status_is_spec in H. congruence.
    + split; [discriminate|]. intros (_ & _ & H & _). discriminate.
  - intros ->. reflexivity.
Qed.

(** ** Further properties: the client-challenge scan *)

Lemma scan_vcl_data_true l :
  scan_vcl_data l = Ok true ->
  exists d, In (JDict d) l /\
            exact_then_pattern (dict_get d (lit "content") (JStr [])) = Ok true.
Proof.
  induction l as [|u l IH]; [discriminate|].
  destruct u as [ | | | | |d]; try discriminate.
  rewrite scan_vcl_data_cons.
  destruct (exact_then_pattern _) as [[|]| |] eqn:E; try discriminate.
  - intros _. exists d. split; [left; reflexivity | exact E].
  - intros H. destruct (IH H) as (d' & Hin & Hd').
    exists d'. split; [right; exact Hin | exact Hd'].
Qed.

Lemma scan_vcl_data_false l :
  scan_vcl_data l = Ok false ->
  forall u, In u l ->
    exists d, u = JDict d /\
              exact_then_pattern (dict_get d (lit "content") (JStr [])) = Ok false.
Proof.
  induction l as [|u0 l IH]; [intros _ u []|].
  destruct u0 as [ | | | | |d]; try discriminate.
  rewrite scan_vcl_data_cons.
  destruct (exact_then_pattern _) as [[|]| |] eqn:E; try discriminate.
  intros H u [<- | Hin]; [eauto|]. apply IH; assumption.
Qed.

Lemma exact_then_pattern_text_pattern s :
  exact_then_pattern (JStr s) = Ok (pattern_found s).
Proof.
  rewrite exact_then_pattern_text.
  destruct (str_contains exact_match s) eqn:E; [|reflexivity].
  rewrite (exact_implies_pattern _ E). reflexivity.
Qed.

(** X7.  [check_client_challenge] looks up the generated blob exactly
    when the scan of the listing ended without a match: after a match, and
    after an exception in the scan, the listing lookup is the only one and
    its outcome is the result.  It never makes more than these two lookups
    and never touches the report files. *)
Theorem check_client_challenge_lookups tok sid ver w :
  let r := api (log w) tok (vcl_endpoint sid ver) in
  let w1 := after_call w tok (vcl_endpoint sid ver) in
  let w2 := after_call w1 tok (generated_vcl_endpoint sid ver) in
  (scan_listing r = Ok false ->
   snd (check_client_challenge tok sid ver w) = w2) /\
  (scan_listing r <> Ok false ->
   check_client_challenge tok sid ver w = (scan_listing r, w1)) /\
  files (snd (check_client_challenge tok sid ver w)) = files w.
Proof.
  intros r w1 w2. rewrite check_client_challenge_run. fold r w1 w2.
  destruct (scan_listing r) as [[|]| |]; cbn [snd];
    (split; [|split]); try reflexivity; try congruence;
    intros H; reflexivity.
Qed.

(** X8.  No false positive: when [check_client_challenge] returns [True],
    the literal-or-pattern test succeeded on the content of a unit of a
    listing that came back with status 200, or -- the listing having
    produced no match -- on the content of the generated blob that came
    back with status 200.  On text content this test is the pattern
    search. *)
Theorem check_client_challenge_sound tok sid ver w :
  fst (check_client_challenge tok sid ver w) = Ok true ->
  let r := api (log w) tok (vcl_endpoint sid ver) in
  let w1 := after_call w tok (vcl_endpoint sid ver) in
  let g := api (log w1) tok (generated_vcl_endpoint sid ver) in
  ((status_code r = Some 200%Z /\
    exists units d,
      payload r = JList units /\ In (JDict d) units /\
      exact_then_pattern (dict_get d (lit "content") (JStr [])) = Ok true) \/
   (scan_listing r = Ok false /\ status_code g = Some 200%Z /\
    exists d,
      payload g = JDict d /\
      exact_then_pattern (dict_get d (lit "content") (JStr [])) = Ok true)) /\
  (forall s, exact_then_pattern (JStr s) = Ok (pattern_found s)).
Proof.
  intros H r w1 g. split; [|exact exact_then_pattern_text_pattern].
  rewrite check_client_challenge_run in H. fold r w1 g in H.
  destruct (scan_listing r) as [[|]| |] eqn:E; cbn [fst] in H; try discriminate.
  - left. unfold scan_listing in E.
    destruct (status_is 200 r) eqn:Es; [|discriminate].
    apply status_is_spec in Es. split; [exact Es|].
    destruct (payload r) as [ | | | |units| ]; try discriminate.
    destruct (scan_vcl_data_true units E) as (d & Hin & Hd). eauto.
  - right. split; [reflexivity|]. unfold scan_blob in H.
    destruct (status_is 200 g) eqn:Es; [|discriminate].
    apply status_is_spec in Es. split; [exact Es|].
    destruct (payload g) as [ | | | | |d]; try discriminate. eauto.
Qed.

(** X9.  No false negative among what was fetched: when
    [check_client_challenge] returns [False], every unit of a listing that
    came back with status 200 is a mapping whose content fails the
    literal-or-pattern test, and so does the content of a generated blob
    that came back as a mapping with status 200. *)
Theorem check_client_challenge_false_is_thorough tok sid ver w :
  fst (check_client_challenge tok sid ver w) = Ok false ->
  let r := api (log w) tok (vcl_endpoint sid ver) in
  let w1 := after_call w tok (vcl_endpoint sid ver) in
  let g := api (log w1) tok (generated_vcl_endpoint sid ver) in
  (forall units u,
      status_code r = Some 200%Z -> payload r = JList units -> In u units ->
      exists d, u = JDict d /\
                exact_then_pattern (dict_get d (lit "content") (JStr [])) = Ok false) /\
  (forall d,
      status_code g = Some 200%Z -> payload g = JDict d ->
      exact_then_pattern (dict_get d (lit "content") (JStr [])) = Ok false).
Proof.
  intros H r w1 g.
  rewrite check_client_challenge_run in H. fold r w1 g in H.
  destruct (scan_listing r) as [[|]| |] eqn:E; cbn [fst] in H; try discriminate.
  split.
  - intros units u Hs Hp Hin. unfold scan_listing in E.
    apply status_is_spec in Hs. rewrite Hs, Hp in E.
    exact (scan_vcl_data_false units E u Hin).
  - intros d Hs Hp. unfold scan_blob in H.
    apply status_is_spec in Hs. rewrite Hs, Hp in H. exact H.
Qed.

(** ** Further properties: the pattern *)

Lemma seq_matches_inv ic r1 r2 w :
  matches ic (Seq r1 r2) w ->
  exists w1 w2, w = w1 ++ w2 /\ matches ic r1 w1 /\ matches ic r2 w2.
Proof. intros H. inv H. eauto. Qed.

Lemma literals_matches_inv tok : forall t,
  matches true (literals tok) t -> accepted_as tok t.
Proof.
  unfold accepted_as. induction tok as [|c tok IH]; intros t H; cbn in H.
  - inv H. constructor.
  - apply seq_matches_inv in H. destruct H as (w1 & w2 & -> & H1 & H2).
    inv H1. cbn [app]. constructor; auto.
Qed.

Lemma accepted_as_matches tok : forall t,
  accepted_as tok t -> matches true (literals tok) t.
Proof.
  unfold accepted_as. induction tok as [|c tok IH]; intros t H; inv H; simpl.
  - constructor.
  - match goal with |- matches _ _ (?y :: ?l) =>
      change (y :: l) with ([y] ++ l) end.
    constructor; auto. constructor. assumption.
Qed.

Lemma star_space_inv ic ws :
  matches ic (Star Space) ws -> Forall (fun x => is_space x = true) ws.
Proof.
  intros H. remember (Star Space) as r eqn:Hr.
  induction H; try discriminate.
  - constructor.
  - injection Hr as ->. apply Forall_app. split; auto.
    match goal with H : matches _ Space _ |- _ => inv H end.
    constructor; auto.
Qed.

Lemma plus_space_inv ic ws : matches ic (Plus Space) ws -> ws_run ws.
Proof.
  intros H. apply seq_matches_inv in H.
  destruct H as (w1 & w2 & -> & H1 & H2). inv H1. split; [discriminate|].
  cbn [app]. constructor; auto. eapply star_space_inv; eauto.
Qed.

(** X10.  The pattern search succeeds on a content exactly when the
    content holds, somewhere, the four tokens [pragma], [optional_param],
    [client_challenge_enabled], [true] in this order, each accepted
    character by character by the case-insensitive matcher, with a
    non-empty run of whitespace between neighbours.  Nothing is required
    before or after: neither a terminator nor a line start. *)
Theorem pattern_found_iff content :
  pattern_found content = true <->
  exists pre t1 s1 t2 s2 t3 s3 t4 post,
    content = pre ++ t1 ++ s1 ++ t2 ++ s2 ++ t3 ++ s3 ++ t4 ++ post /\
    accepted_as (lit "pragma") t1 /\ ws_run s1 /\
    accepted_as (lit "optional_param") t2 /\ ws_run s2 /\
    accepted_as (lit "client_challenge_enabled") t3 /\ ws_run s3 /\
    accepted_as (lit "true") t4.
Proof.
  unfold pattern_found. rewrite re_search_spec. split.
  - intros (pre & w & post & -> & H). unfold pattern in H.
    apply seq_matches_inv in H. destruct H as (t1 & w1 & -> & Ht1 & H).
    apply seq_matches_inv in H. destruct H as (s1 & w2 & -> & Hs1 & H).
    apply seq_matches_inv in H. destruct H as (t2 & w3 & -> & Ht2 & H).
    apply seq_matches_inv in H. destruct H as (s2 & w4 & -> & Hs2 & H).
    apply seq_matches_inv in H. destruct H as (t3 & w5 & -> & Ht3 & H).
    apply seq_matches_inv in H. destruct H as (s3 & w6 & -> & Hs3 & H).
    apply seq_matches_inv in H. destruct H as (t4 & w7 & -> & Ht4 & _).
    exists pre, t1, s1, t2, s2, t3, s3, t4, (w7 ++ post).
    rewrite <- !app_assoc.
    repeat split; auto using literals_matches_inv;
      eapply plus_space_inv; eauto.
  - intros (pre & t1 & s1 & t2 & s2 & t3 & s3 & t4 & post & -> & Ht1 & Hs1 &
            Ht2 & Hs2 & Ht3 & Hs3 & Ht4).
    exists pre, (t1 ++ s1 ++ t2 ++ s2 ++ t3 ++ s3 ++ t4 ++ [] ++ []), post.
    split.
    + cbn [app]. rewrite app_nil_r, <- !app_assoc. reflexivity.
    + unfold pattern.
      repeat (apply m_seq; auto using accepted_as_matches, ws_run_matches).
      * constructor.
      * apply m_alt_r. constructor.
Qed.

(** ** Further properties: the report *)

Lemma audit_service_run tok f s w :
  let sid := dict_get s (lit "id") JNull in
  truthy sid = true ->
  audit_service tok f (JDict s) w =
  let w1 := after_call w tok (details_endpoint sid) in
  match details_of (api (log w) tok (details_endpoint sid)) with
  | Ok det =>
      let v := active_version det in
      if version_usable v then
        let sep := snippet_endpoint sid v (lit "ngwaf_config_init") in
        let w2 := after_call w1 tok sep in
        match check_client_challenge tok sid v w2 with
        | (Ok cc, w3) =>
            writerow f [name det; sid; JStr v;
                        JStr (snippet_status (api (log w1) tok sep));
                        JStr (py_str (JBool cc))] w3
        | (Raise e, w3) => (Raise e, w3)
        | (OutOfFuel, w3) => (OutOfFuel, w3)
        end
      else writerow f (unscanned_row det sid) w1
  | Raise e => (Raise e, w1)
  | OutOfFuel => (OutOfFuel, w1)
  end.
Proof.
  intros sid Hid. unfold audit_service. fold sid. rewrite Hid. cbn [negb].
  rewrite bind_run, get_service_details_run.
  destruct (details_of _) as [det|e|]; try reflexivity.
  cbv zeta. destruct (version_usable (active_version det)); [|reflexivity].
  rewrite !bind_run, check_snippet_run. cbv beta iota. rewrite bind_run.
  destruct (check_client_challenge tok sid (active_version det) _)
    as [[cc|e|] w3]; reflexivity.
Qed.

Lemma snippet_status_shape r :
  snippet_status r = present_mark \/ snippet_status r = absent_mark \/
  starts_with (lit "Error: ") (snippet_status r) = true.
Proof.
  unfold snippet_status. destruct (status_is 200 r); [auto|].
  destruct (status_is 404 r); [auto|]. right. right.
  apply starts_with_spec. eexists. reflexivity.
Qed.

Lemma audit_service_row_ok tok f svc w :
  fst (audit_service tok f svc w) = Ok tt ->
  exists new, rows_in (snd (audit_service tok f svc w)) f = rows_in w f ++ new /\
              Forall row_ok new.
Proof.
  destruct svc as [ | | | | |s]; try discriminate.
  destruct (truthy (dict_get s (lit "id") JNull)) eqn:Hid.
  2:{ unfold audit_service. rewrite Hid. cbn [negb ret fst snd]. intros _.
      exists []. rewrite app_nil_r. auto. }
  rewrite (audit_service_run tok f s w Hid). cbv zeta.
  destruct (details_of _) as [det|e|]; try discriminate.
  destruct (version_usable (active_version det)) eqn:Hv.
  - destruct (check_client_challenge_world tok
                (dict_get s (lit "id") JNull) (active_version det)
                (after_call (after_call w tok (details_endpoint
                                                 (dict_get s (lit "id") JNull)))
                   tok (snippet_endpoint (dict_get s (lit "id") JNull)
                          (active_version det) (lit "ngwaf_config_init"))))
      as (calls & _ & Hf & _).
    destruct (check_client_challenge tok _ _ _) as [[cc|e|] w3];
      try discriminate.
    cbn [fst snd] in Hf. intros _. eexists. rewrite writerow_rows.
    unfold rows_in. rewrite Hf. cbn [after_call files].
    split; [reflexivity|]. constructor; [|constructor].
    exists (name det), (dict_get s (lit "id") JNull), (active_version det),
      (snippet_status
         (api (log (after_call w tok (details_endpoint
                                        (dict_get s (lit "id") JNull))))
              tok (snippet_endpoint (dict_get s (lit "id") JNull)
                     (active_version det) (lit "ngwaf_config_init")))), cc.
    split; [reflexivity|]. split; [exact Hid|]. split; [congruence|].
    intros _. apply snippet_status_shape.
  - intros _. eexists. rewrite writerow_rows. unfold rows_in.
    cbn [after_call files]. split; [reflexivity|]. constructor; [|constructor].
    exists (name det), (dict_get s (lit "id") JNull), (active_version det),
      (lit "No active version"), false.
    split; [reflexivity|]. split; [exact Hid|]. split; [auto | congruence].
Qed.

Lemma for_each_audit_row_ok tok f : forall services w,
  fst (for_each services (audit_service tok f) w) = Ok tt ->
  exists new,
    rows_in (snd (for_each services (audit_service tok f) w)) f =
      rows_in w f ++ new /\
    Forall row_ok new.
Proof.
  induction services as [|svc services IH]; intros w.
  - intros _. exists []. cbn [for_each ret snd]. rewrite app_nil_r. auto.
  - rewrite for_each_cons.
    pose proof (audit_service_row_ok tok f svc w) as H1.
    destruct (audit_service tok f svc w) as [[[]|e|] w1]; cbn [fst snd] in *;
      try discriminate.
    intros Hok. destruct (H1 eq_refl) as (n1 & E1 & F1).
    destruct (IH w1 Hok) as (n2 & E2 & F2).
    exists (n1 ++ n2). rewrite E2, E1, app_assoc. split; [reflexivity|].
    apply Forall_app. auto.
Qed.

(** X11.  In a completed run of [main] over a non-empty list of services,
    every data row of both report files is well formed: five cells -- name,
    id, version, WAF status, challenge flag -- with a truthy id and a flag
    that reads [True] or [False]; a service that was not scanned shows
    ["No active version"] and [False], a scanned one shows one of the two
    marks or a text starting with ["Error: "] as WAF status. *)
Theorem report_rows_well_formed tok cid ts w services :
  fst (get_services tok cid w) = Ok services ->
  services <> [] ->
  fst (main tok cid ts w) = Ok tt ->
  forall f, In f [report_file ts; fixed_report_file] ->
  exists rows,
    rows_in (snd (main tok cid ts w)) f = header :: rows /\
    Forall row_ok rows.
Proof.
  intros Hs Hne. rewrite main_run.
  destruct (get_services tok cid w) as [res w0]. cbn [fst] in Hs. subst res.
  assert (Ht : negb (truthy (JList services)) = false)
    by (destruct services; [congruence | reflexivity]).
  rewrite Ht.
  assert (Pass : forall f w1,
             fst (write_report tok services f w1) = Ok tt ->
             exists rows,
               rows_in (snd (write_report tok services f w1)) f = header :: rows /\
               Forall row_ok rows).
  { intros f w1. rewrite write_report_run. intros Hok.
    destruct (for_each_audit_row_ok tok f services _ Hok) as (new & E & F).
    exists new. rewrite E. split; [|exact F].
    unfold rows_in, writerow, open_w. cbn [snd files].
    rewrite !pystr_eqb_refl. reflexivity. }
  pose proof (Pass (report_file ts) w0) as P1.
  destruct (write_report tok services (report_file ts) w0) as [[[]|e|] w1];
    cbn [fst snd] in *; try discriminate.
  pose proof (Pass fixed_report_file w1) as P2.
  destruct (write_report_effect tok services fixed_report_file w1)
    as (Hg2 & _ & _).
  destruct (write_report tok services fixed_report_file w1) as [[[]|e|] w2];
    cbn [fst snd] in *; try discriminate.
  intros _ f [<- | [<- | []]].
  - destruct (P1 eq_refl) as (rows & E & F). exists rows.
    unfold rows_in in *. rewrite (Hg2 _ (report_files_differ ts)). auto.
  - exact (P2 eq_refl).
Qed.

(** X12.  [main] writes to its two report files only: whatever the remote
    service answers and however the run ends, every other file is left as
    it was, and every lookup made is appended to the log. *)
Theorem main_touches_only_its_reports tok cid ts w :
  (forall g,
      g <> report_file ts -> g <> fixed_report_file ->
      files (snd (main tok cid ts w)) g = files w g) /\
  exists calls, log (snd (main tok cid ts w)) = log w ++ calls.
Proof.
  rewrite main_run.
  destruct (get_services_loop_frame 5 tok cid [] 1%Z w) as [[c0 Hl0] Hf0].
  fold (get_services tok cid w) in Hl0, Hf0.
  destruct (get_services tok cid w) as [[services|e|] w0]; cbn [fst snd] in *;
    try (split; [intros g _ _; rewrite Hf0; reflexivity | eauto]).
  destruct (negb (truthy (JList services))); cbn [snd];
    [split; [intros g _ _; rewrite Hf0; reflexivity | eauto]|].
  assert (Ne : forall a b, a <> b -> pystr_eqb a b = false).
  { intros a b H. destruct (pystr_eqb a b) eqn:E; [|reflexivity].
    apply pystr_eqb_spec in E. contradiction. }
  destruct (write_report_effect tok services (report_file ts) w0)
    as (Hg1 & [c1 Hl1] & _).
  destruct (write_report tok services (report_file ts) w0) as [[[]|e|] w1];
    cbn [fst snd] in *;
    try (split; [intros g H1 H2; rewrite (Hg1 g (Ne _ _ H1)), Hf0; reflexivity
                |exists (c0 ++ c1); rewrite Hl1, Hl0, app_assoc; reflexivity]).
  destruct (write_report_effect tok services fixed_report_file w1)
    as (Hg2 & [c2 Hl2] & _).
  destruct (write_report tok services fixed_report_file w1) as [[[]|e|] w2];
    cbn [fst snd] in *;
    (split; [intros g H1 H2;
             rewrite (Hg2 g (Ne _ _ H2)), (Hg1 g (Ne _ _ H1)), Hf0; reflexivity
            |exists (c0 ++ c1 ++ c2);
             rewrite Hl2, Hl1, Hl0, !app_assoc; reflexivity]).
Qed.

(** ** Further properties: a remote service without memory *)

Lemma get_services_loop_history_free fuel tok cid :
  history_free ->
  forall all page w1 w2,
    fst (get_services_loop fuel tok cid all page w1) =
    fst (get_services_loop fuel tok cid all page w2).
Proof.
  intros HF. induction fuel as [|fuel IH]; intros all page w1 w2.
  - rewrite !get_services_loop_zero.
    destruct (length all <? total_expected); reflexivity.
  - rewrite !get_services_loop_step.
    destruct (length all <? total_expected); [|reflexivity].
    cbv zeta. rewrite (HF (log w1) (log w2)).
    destruct (page_failed _); [reflexivity|].
    destruct (py_iter _) as [items| |]; try reflexivity.
    destruct (length items <? page_size); [reflexivity|]. apply IH.
Qed.

Lemma audit_service_history_free tok f svc w :
  history_free ->
  fst (audit_service tok f svc w) = done_of (service_rows tok svc) /\
  (forall rows, service_rows tok svc = Ok rows ->
     rows_in (snd (audit_service tok f svc w)) f = rows_in w f ++ rows).
Proof.
  intros HF. destruct svc as [ | | | | |s];
    try (split; [reflexivity | discriminate]).
  cbn [service_rows].
  destruct (truthy (dict_get s (lit "id") JNull)) eqn:Hid; cbn [negb].
  2:{ unfold audit_service. rewrite Hid. cbn [negb ret fst snd done_of].
      split; [reflexivity|]. intros rows H. injection H as <-.
      rewrite app_nil_r. reflexivity. }
  rewrite (audit_service_run tok f s w Hid). cbv zeta.
  set (sid := dict_get s (lit "id") JNull).
  rewrite (HF (log w) []).
  destruct (details_of (api [] tok (details_endpoint sid))) as [det|e|];
    try (split; [reflexivity | discriminate]).
  destruct (version_usable (active_version det)).
  - rewrite check_client_challenge_run. cbv zeta.
    rewrite (HF (log (after_call w tok (details_endpoint sid))) []).
    rewrite (HF (log (after_call (after_call w tok (details_endpoint sid)) tok
                        (snippet_endpoint sid (active_version det)
                           (lit "ngwaf_config_init")))) []).
    rewrite (HF (log (after_call
                        (after_call (after_call w tok (details_endpoint sid)) tok
                           (snippet_endpoint sid (active_version det)
                              (lit "ngwaf_config_init")))
                        tok (vcl_endpoint sid (active_version det)))) []).
    destruct (scan_listing _) as [[|]|e|].
    + split; [reflexivity|]. intros rows H. injection H as <-.
      rewrite writerow_rows. reflexivity.
    + destruct (scan_blob _) as [cc|e|];
        try (split; [reflexivity | discriminate]).
      split; [reflexivity|]. intros rows H. injection H as <-.
      rewrite writerow_rows. reflexivity.
    + split; [reflexivity | discriminate].
    + split; [reflexivity | discriminate].
  - split; [reflexivity|]. intros rows H. injection H as <-.
    rewrite writerow_rows. reflexivity.
Qed.

Lemma audit_service_v2_history_free tok f svc w :
  history_free ->
  fst (audit_service_v2 tok f svc w) = done_of (service_rows_v2 tok svc) /\
  (forall rows, service_rows_v2 tok svc = Ok rows ->
     rows_in (snd (audit_service_v2 tok f svc w)) f = rows_in w f ++ rows).
Proof.
  intros HF. destruct svc as [ | | | | |s];
    try (split; [reflexivity | discriminate]).
  cbn [service_rows_v2]. unfold audit_service_v2.
  destruct (truthy (dict_get s (lit "id") JNull)) eqn:Hid; cbn [negb].
  2:{ cbn [ret fst snd done_of]. split; [reflexivity|].
      intros rows H. injection H as <-. rewrite app_nil_r. reflexivity. }
  set (sid := dict_get s (lit "id") JNull).
  rewrite bind_run, get_service_details_run, (HF (log w) []).
  destruct (details_of (api [] tok (details_endpoint sid))) as [det|e|];
    try (split; [reflexivity | discriminate]).
  cbv zeta. rewrite bind_run.
  destruct (version_usable (active_version det)).
  - rewrite check_snippet_run,
      (HF (log (after_call w tok (details_endpoint sid))) []).
    split; [reflexivity|]. intros rows H. injection H as <-.
    rewrite writerow_rows. reflexivity.
  - cbn [ret]. split; [reflexivity|]. intros rows H. injection H as <-.
    rewrite writerow_rows. reflexivity.
Qed.

(** A report pass whose per-service step adds the rows [rows_of] names. *)
Lemma for_each_rows (body : json -> M unit)
    (rows_of : json -> outcome (list csv_row)) f :
  (forall svc w,
      fst (body svc w) = done_of (rows_of svc) /\
      (forall rows, rows_of svc = Ok rows ->
         rows_in (snd (body svc w)) f = rows_in w f ++ rows)) ->
  forall services w,
    fst (for_each services body w) = done_of (report_rows rows_of services) /\
    (forall rows, report_rows rows_of services = Ok rows ->
       rows_in (snd (for_each services body w)) f = rows_in w f ++ rows).
Proof.
  intros Hbody. induction services as [|svc services IH]; intros w.
  - cbn [for_each ret report_rows done_of fst snd]. split; [reflexivity|].
    intros rows H. injection H as <-. rewrite app_nil_r. reflexivity.
  - rewrite for_each_cons. cbn [report_rows].
    destruct (Hbody svc w) as [Hd Hr].
    destruct (body svc w) as [o w1]. cbn [fst snd] in Hd, Hr.
    destruct (rows_of svc) as [rows1|e|]; cbn [done_of] in Hd; subst o;
      try (split; [reflexivity | discriminate]).
    destruct (IH w1) as [Hd' Hr'].
    destruct (report_rows rows_of services) as [rows2|e|];
      cbn [done_of] in *; (split; [exact Hd'|]); try discriminate.
    intros rows H. injection H as <-.
    rewrite (Hr' rows2 eq_refl), (Hr rows1 eq_refl), app_assoc. reflexivity.
Qed.

Lemma write_report_history_free tok services f w :
  history_free ->
  fst (write_report tok services f w) =
    done_of (report_rows (service_rows tok) services) /\
  (forall rows, report_rows (service_rows tok) services = Ok rows ->
     rows_in (snd (write_report tok services f w)) f = header :: rows).
Proof.
  intros HF. rewrite write_report_run.
  destruct (for_each_rows (audit_service tok f) (service_rows tok) f
              (fun svc w0 => audit_service_history_free tok f svc w0 HF)
              services (snd (writerow f header (snd (open_w f w)))))
    as [Hd Hr].
  split; [exact Hd|]. intros rows H. rewrite (Hr rows H).
  unfold rows_in, writerow, open_w. cbn [snd files].
  rewrite !pystr_eqb_refl. reflexivity.
Qed.

Lemma write_report_v2_history_free tok services f w :
  history_free ->
  fst (write_report_v2 tok services f w) =
    done_of (report_rows (service_rows_v2 tok) services) /\
  (forall rows, report_rows (service_rows_v2 tok) services = Ok rows ->
     rows_in (snd (write_report_v2 tok services f w)) f = header_v2 :: rows).
Proof.
  intros HF.
  change (write_report_v2 tok services f w) with
    (for_each services (audit_service_v2 tok f)
       (snd (writerow f header_v2 (snd (open_w f w))))).
  destruct (for_each_rows (audit_service_v2 tok f) (service_rows_v2 tok) f
              (fun svc w0 => audit_service_v2_history_free tok f svc w0 HF)
              services (snd (writerow f header_v2 (snd (open_w f w)))))
    as [Hd Hr].
  split; [exact Hd|]. intros rows H. rewrite (Hr rows H).
  unfold rows_in, writerow, open_w. cbn [snd files].
  rewrite !pystr_eqb_refl. reflexivity.
Qed.

Lemma write_report_v2_other tok services f w g :
  pystr_eqb g f = false ->
  files (snd (write_report_v2 tok services f w)) g = files w g.
Proof.
  intros Hg.
  change (write_report_v2 tok services f w) with
    (for_each services (audit_service_v2 tok f)
       (snd (writerow f header_v2 (snd (open_w f w))))).
  assert (Step : forall svc w0,
             files (snd (audit_service_v2 tok f svc w0)) g = files w0 g).
  { intros svc w0. destruct svc as [ | | | | |s]; try reflexivity.
    unfold audit_service_v2.
    destruct (truthy (dict_get s (lit "id") JNull)); [|reflexivity].
    cbn [negb]. rewrite bind_run, get_service_details_run.
    destruct (details_of _) as [det|e|]; try reflexivity.
    cbv zeta. rewrite bind_run.
    destruct (version_usable (active_version det)).
    - rewrite check_snippet_run. unfold writerow. cbn [snd files].
      rewrite Hg. reflexivity.
    - unfold ret, writerow. cbn [snd files]. rewrite Hg. reflexivity. }
  assert (Loop : forall l w0,
             files (snd (for_each l (audit_service_v2 tok f) w0)) g = files w0 g).
  { induction l as [|svc l IH]; intros w0; [reflexivity|].
    rewrite for_each_cons. pose proof (Step svc w0) as Hs.
    destruct (audit_service_v2 tok f svc w0) as [[[]|e|] w1];
      cbn [snd] in *; try exact Hs.
    rewrite IH. exact Hs. }
  rewrite Loop. unfold writerow, open_w. cbn [snd files]. rewrite !Hg.
  reflexivity.
Qed.

(** With a history-free remote service, a run of [main] over a non-empty
    service list ends the way the pure row computation ends, and both
    files hold the header followed by those rows. *)
Lemma main_history_free tok cid ts w services :
  history_free ->
  fst (get_services tok cid w) = Ok services ->
  services <> [] ->
  fst (main tok cid ts w) = done_of (report_rows (service_rows tok) services) /\
  (forall rows, report_rows (service_rows tok) services = Ok rows ->
     rows_in (snd (main tok cid ts w)) (report_file ts) = header :: rows /\
     rows_in (snd (main tok cid ts w)) fixed_report_file = header :: rows).
Proof.
  intros HF Hs Hne. rewrite main_run.
  destruct (get_services tok cid w) as [res w0]. cbn [fst] in Hs. subst res.
  assert (Ht : negb (truthy (JList services)) = false)
    by (destruct services; [congruence | reflexivity]).
  rewrite Ht.
  destruct (write_report_history_free tok services (report_file ts) w0 HF)
    as [Hd1 Hr1].
  destruct (write_report tok services (report_file ts) w0) as [o1 w1].
  cbn [fst snd] in Hd1, Hr1.
  destruct (write_report_history_free tok services fixed_report_file w1 HF)
    as [Hd2 Hr2].
  destruct (write_report_effect tok services fixed_report_file w1)
    as (Hg2 & _ & _).
  destruct (write_report tok services fixed_report_file w1) as [o2 w2].
  cbn [fst snd] in Hd2, Hr2, Hg2.
  destruct (report_rows (service_rows tok) services) as [rows|e|];
    cbn [done_of] in *; subst o1; try (split; [reflexivity | discriminate]).
  subst o2. cbn [fst snd]. split; [reflexivity|].
  intros rows' H. injection H as <-.
  split; [|exact (Hr2 rows eq_refl)].
  unfold rows_in in *. rewrite (Hg2 _ (report_files_differ ts)).
  exact (Hr1 rows eq_refl).
Qed.

(** X13.  When the remote service answers by endpoint alone, a completed
    run of [main] over a non-empty service list leaves the same content in
    both report files: the header followed by the rows that the replies
    determine, service by service. *)
Theorem both_reports_are_identical tok cid ts w services :
  history_free ->
  fst (get_services tok cid w) = Ok services ->
  services <> [] ->
  fst (main tok cid ts w) = Ok tt ->
  exists rows,
    report_rows (service_rows tok) services = Ok rows /\
    rows_in (snd (main tok cid ts w)) (report_file ts) = header :: rows /\
    rows_in (snd (main tok cid ts w)) fixed_report_file = header :: rows.
Proof.
  intros HF Hs Hne Hok.
  destruct (main_history_free tok cid ts w services HF Hs Hne) as [Hd Hr].
  rewrite Hok in Hd.
  destruct (report_rows (service_rows tok) services) as [rows|e|];
    try discriminate.
  exists rows. split; [reflexivity|]. exact (Hr rows eq_refl).
Qed.

(** X14.  When the remote service answers by endpoint alone, running the
    audit again -- from any other state of the log and the files, at any
    other time -- enumerates the same services, ends the same way and
    writes the same rows. *)
Theorem repeated_runs_agree tok cid ts1 ts2 w1 w2 :
  history_free ->
  fst (get_services tok cid w1) = fst (get_services tok cid w2) /\
  fst (main tok cid ts1 w1) = fst (main tok cid ts2 w2) /\
  (forall services,
      fst (get_services tok cid w1) = Ok services -> services <> [] ->
      fst (main tok cid ts1 w1) = Ok tt ->
      rows_in (snd (main tok cid ts1 w1)) fixed_report_file =
      rows_in (snd (main tok cid ts2 w2)) fixed_report_file /\
      rows_in (snd (main tok cid ts1 w1)) (report_file ts1) =
      rows_in (snd (main tok cid ts2 w2)) (report_file ts2)).
Proof.
  intros HF.
  pose proof (get_services_loop_history_free 5 tok cid HF [] 1%Z w1 w2) as Hg.
  fold (get_services tok cid w1) (get_services tok cid w2) in Hg.
  split; [exact Hg|].
  assert (Same : fst (main tok cid ts1 w1) = fst (main tok cid ts2 w2)).
  { destruct (fst (get_services tok cid w1)) as [services|e|] eqn:E1.
    - destruct services as [|svc rest].
      + rewrite !main_run.
        destruct (get_services tok cid w1) as [r1 u1].
        destruct (get_services tok cid w2) as [r2 u2].
        cbn [fst] in *. subst r1 r2. reflexivity.
      + assert (Hne : svc :: rest <> []) by discriminate.
        symmetry in Hg.
        rewrite (proj1 (main_history_free tok cid ts1 w1 _ HF E1 Hne)).
        rewrite (proj1 (main_history_free tok cid ts2 w2 _ HF Hg Hne)).
        reflexivity.
    - rewrite !main_run.
      destruct (get_services tok cid w1) as [r1 u1].
      destruct (get_services tok cid w2) as [r2 u2].
      cbn [fst] in *. subst r1 r2. reflexivity.
    - rewrite !main_run.
      destruct (get_services tok cid w1) as [r1 u1].
      destruct (get_services tok cid w2) as [r2 u2].
      cbn [fst] in *. subst r1 r2. reflexivity. }
  split; [exact Same|].
  intros services E1 Hne Hok.
  assert (E2 : fst (get_services tok cid w2) = Ok services) by congruence.
  destruct (main_history_free tok cid ts1 w1 services HF E1 Hne) as [Hd1 Hr1].
  destruct (main_history_free tok cid ts2 w2 services HF E2 Hne) as [_ Hr2].
  rewrite Hok in Hd1.
  destruct (report_rows (service_rows tok) services) as [rows|e|];
    try discriminate.
  destruct (Hr1 rows eq_refl) as [A1 B1].
  destruct (Hr2 rows eq_refl) as [A2 B2].
  rewrite A1, B1, A2, B2. auto.
Qed.

(** ** Further properties: the earlier variants *)

Lemma service_rows_v2_of_v3 tok svc rows :
  service_rows tok svc = Ok rows ->
  service_rows_v2 tok svc = Ok (map (firstn 4) rows).
Proof.
  destruct svc as [ | | | | |s]; try discriminate.
  cbn [service_rows service_rows_v2].
  destruct (negb (truthy (dict_get s (lit "id") JNull))).
  - intros H. injection H as <-. reflexivity.
  - destruct (details_of _) as [det|e|]; try discriminate. cbv zeta.
    destruct (version_usable (active_version det)).
    + destruct (match scan_listing _ with Ok false => _ | other => other end)
        as [cc|e|]; try discriminate.
      intros H. injection H as <-. reflexivity.
    + intros H. injection H as <-. reflexivity.
Qed.

Lemma report_rows_v2_of_v3 tok : forall services rows,
  report_rows (service_rows tok) services = Ok rows ->
  report_rows (service_rows_v2 tok) services = Ok (map (firstn 4) rows).
Proof.
  induction services as [|svc services IH]; intros rows; cbn [report_rows].
  - intros H. injection H as <-. reflexivity.
  - destruct (service_rows tok svc) as [r1|e|] eqn:E1; try discriminate.
    rewrite (service_rows_v2_of_v3 tok svc r1 E1).
    destruct (report_rows (service_rows tok) services) as [r2|e|];
      try discriminate.
    rewrite (IH r2 eq_refl). intros H. injection H as <-.
    rewrite map_app. reflexivity.
Qed.

Lemma main_v2_run tok cid ts w :
  main_v2 tok cid ts w =
  match get_services tok cid w with
  | (Ok services, w0) =>
      if negb (truthy (JList services)) then (Ok tt, w0)
      else
        match write_report_v2 tok services (report_file ts) w0 with
        | (Ok _, w1) =>
            match write_report_v2 tok services fixed_report_file w1 with
            | (Ok _, w2) => (Ok tt, w2)
            | (Raise e, w2) => (Raise e, w2)
            | (OutOfFuel, w2) => (OutOfFuel, w2)
            end
        | (Raise e, w1) => (Raise e, w1)
        | (OutOfFuel, w1) => (OutOfFuel, w1)
        end
  | (Raise e, w0) => (Raise e, w0)
  | (OutOfFuel, w0) => (OutOfFuel, w0)
  end.
Proof.
  unfold main_v2. rewrite bind_run.
  destruct (get_services tok cid w) as [[services|e|] w0]; try reflexivity.
  destruct (negb (truthy (JList services))); [reflexivity|].
  rewrite !for_each_cons.
  destruct (write_report_v2 tok services (report_file ts) w0) as [[[]|e|] w1];
    reflexivity.
Qed.

Lemma main_v2_history_free tok cid ts w services :
  history_free ->
  fst (get_services tok cid w) = Ok services ->
  services <> [] ->
  fst (main_v2 tok cid ts w) =
    done_of (report_rows (service_rows_v2 tok) services) /\
  (forall rows, report_rows (service_rows_v2 tok) services = Ok rows ->
     rows_in (snd (main_v2 tok cid ts w)) (report_file ts) = header_v2 :: rows /\
     rows_in (snd (main_v2 tok cid ts w)) fixed_report_file = header_v2 :: rows).
Proof.
  intros HF Hs Hne. rewrite main_v2_run.
  destruct (get_services tok cid w) as [res w0]. cbn [fst] in Hs. subst res.
  assert (Ht : negb (truthy (JList services)) = false)
    by (destruct services; [congruence | reflexivity]).
  rewrite Ht.
  destruct (write_report_v2_history_free tok services (report_file ts) w0 HF)
    as [Hd1 Hr1].
  destruct (write_report_v2 tok services (report_file ts) w0) as [o1 w1].
  cbn [fst snd] in Hd1, Hr1.
  destruct (write_report_v2_history_free tok services fixed_report_file w1 HF)
    as [Hd2 Hr2].
  pose proof (write_report_v2_other tok services fixed_report_file w1
                (report_file ts) (report_files_differ ts)) as Hg2.
  destruct (write_report_v2 tok services fixed_report_file w1) as [o2 w2].
  cbn [fst snd] in Hd2, Hr2, Hg2.
  destruct (report_rows (service_rows_v2 tok) services) as [rows|e|];
    cbn [done_of] in *; subst o1; try (split; [reflexivity | discriminate]).
  subst o2. cbn [fst snd]. split; [reflexivity|].
  intros rows' H. injection H as <-.
  split; [|exact (Hr2 rows eq_refl)].
  unfold rows_in in *. rewrite Hg2. exact (Hr1 rows eq_refl).
Qed.

(** X15.  The report of the second variant is the report of the third
    without its last column: when the remote service answers by endpoint
    alone and the third variant's [main] completes over a non-empty
    service list, the second variant's [main] completes too, from any
    state, and each of its two files holds the first four cells of every
    row, header included, of the third variant's file. *)
Theorem second_variant_is_a_projection tok cid ts w ts2 w2 services :
  history_free ->
  fst (get_services tok cid w) = Ok services ->
  services <> [] ->
  fst (main tok cid ts w) = Ok tt ->
  fst (main_v2 tok cid ts2 w2) = Ok tt /\
  rows_in (snd (main_v2 tok cid ts2 w2)) fixed_report_file =
    map (firstn 4) (rows_in (snd (main tok cid ts w)) fixed_report_file) /\
  rows_in (snd (main_v2 tok cid ts2 w2)) (report_file ts2) =
    map (firstn 4) (rows_in (snd (main tok cid ts w)) (report_file ts)).
Proof.
  intros HF Hs Hne Hok.
  assert (Hs2 : fst (get_services tok cid w2) = Ok services).
  { rewrite <- Hs. apply (get_services_loop_history_free 5 tok cid HF). }
  destruct (main_history_free tok cid ts w services HF Hs Hne) as [Hd Hr].
  destruct (main_v2_history_free tok cid ts2 w2 services HF Hs2 Hne)
    as [Hd2 Hr2].
  rewrite Hok in Hd.
  destruct (report_rows (service_rows tok) services) as [rows|e|] eqn:E;
    try discriminate.
  rewrite (report_rows_v2_of_v3 tok services rows E) in Hd2, Hr2.
  destruct (Hr rows eq_refl) as [A B].
  destruct (Hr2 _ eq_refl) as [A2 B2].
  split; [exact Hd2|]. rewrite A, B, A2, B2. split; reflexivity.
Qed.

(** X16.  The first variant's [get_services] makes exactly one lookup and
    never raises.  When the reply to it carries the same payload as a
    successful, short first page of the paginated enumeration -- a list, or
    a mapping with a list under [data], of fewer than 100 items -- both
    variants return the same services. *)
Theorem first_variant_agrees_on_a_short_page tok cid w items :
  let r1 := api (log w) tok (services_endpoint_v1 cid) in
  let rp := api (log w) tok (services_endpoint cid 1) in
  payload r1 = payload rp ->
  page_failed rp = false ->
  page_data rp = JList items ->
  length items < page_size ->
  snd (get_services_v1 tok cid w) = after_call w tok (services_endpoint_v1 cid) /\
  fst (get_services_v1 tok cid w) = Ok (JList items) /\
  fst (get_services tok cid w) = Ok items.
Proof.
  intros r1 rp Hp Hf Hd Hn.
  split; [|split].
  - unfold get_services_v1, bind, make_api_request, ret, after_call.
    cbn [log files]. destruct (payload _); reflexivity.
  - unfold get_services_v1, bind, make_api_request, ret. cbn [log files].
    fold r1. rewrite Hp. unfold page_data in Hd.
    unfold page_failed in Hf. apply orb_false_iff in Hf. destruct Hf as [Ht _].
    apply negb_false_iff in Ht.
    destruct (payload rp); try discriminate; cbn [fst]; congruence.
  - unfold get_services. rewrite get_services_loop_step.
    change (length (@nil json) <? total_expected) with true. cbv zeta.
    fold rp. rewrite Hf, Hd. cbn [py_iter].
    apply Nat.ltb_lt in Hn. rewrite Hn. reflexivity.
Qed.

(** ** Further properties: exceptions *)

Lemma scan_vcl_data_app a : forall b,
  scan_vcl_data (a ++ b) =
  match scan_vcl_data a with
  | Ok false => scan_vcl_data b
  | other => other
  end.
Proof.
  induction a as [|u a IH]; intros b; [reflexivity|].
  cbn [app]. destruct u as [ | | | | |d]; try reflexivity.
  rewrite !scan_vcl_data_cons.
  destruct (exact_then_pattern _) as [[|]| |]; try reflexivity. apply IH.
Qed.

(** X17.  The units of a listing are examined strictly in order.  When
    the units before it produced no match, a unit that is not a mapping
    ends [check_client_challenge] with [AttributeError], and a unit whose
    content is null, a number or a boolean ends it with [TypeError]; the
    units after it and the generated blob are never looked at. *)
Theorem malformed_unit_ends_the_scan tok sid ver w before u rest :
  let r := api (log w) tok (vcl_endpoint sid ver) in
  status_code r = Some 200%Z ->
  payload r = JList (before ++ u :: rest) ->
  scan_vcl_data before = Ok false ->
  (is_dict u = false ->
   check_client_challenge tok sid ver w =
     (Raise AttributeError, after_call w tok (vcl_endpoint sid ver))) /\
  (forall d,
      u = JDict d ->
      match dict_get d (lit "content") (JStr []) with
      | JNull | JBool _ | JNum _ => True
      | _ => False
      end ->
      check_client_challenge tok sid ver w =
        (Raise TypeError, after_call w tok (vcl_endpoint sid ver))).
Proof.
  intros r Hst Hp Hb. apply status_is_spec in Hst.
  assert (E : scan_listing r = scan_vcl_data (u :: rest)).
  { unfold scan_listing. rewrite Hst, Hp, scan_vcl_data_app, Hb. reflexivity. }
  split.
  - intros Hu. rewrite check_client_challenge_run. fold r. rewrite E.
    destruct u; try discriminate; reflexivity.
  - intros d -> Hc. rewrite check_client_challenge_run. fold r.
    rewrite E, scan_vcl_data_cons.
    destruct (dict_get d (lit "content") (JStr [])); try contradiction;
      reflexivity.
Qed.




End Program.


(** ** Concrete runs *)




(** A snippet lookup answered with 503. *)
Lemma check_snippet_three_way_witness :
  exists s,
    fst (check_snippet api_listing sample_repr sample_token (JStr (lit "svc1"))
           (lit "3") (lit "ngwaf_config_init") blank) = Ok s /\
    s = lit "Error: Unknown (Status: 503)" /\
    s <> present_mark /\ s <> absent_mark.
Proof.
  destruct (check_snippet_three_way api_listing sample_repr sample_token
              (JStr (lit "svc1")) (lit "3") (lit "ngwaf_config_init") blank)
    as (s & Hrun & _ & _ & Herr).
  exists s. rewrite Hrun. split; [reflexivity|].
  destruct Herr as (Hs & _ & Hp & Ha); try discriminate.
  split; [exact Hs|]. split; assumption.
Defined.


(** A full first page, then a failing second page. *)
Lemma get_services_stops_on_failure_witness :
  log (snd (get_services api_truncated sample_repr sample_token sample_customer
              blank)) =
    log blank ++ [truncated_call1] ++ truncated_call2 :: [] /\
  status_code (reply truncated_call2) <> Some 200%Z /\
  fst (get_services api_truncated sample_repr sample_token sample_customer blank)
    = Ok (repeat svc1 100).
Proof.
  assert (H : log (snd (get_services api_truncated sample_repr sample_token
                          sample_customer blank)) =
              log blank ++ [truncated_call1] ++ truncated_call2 :: [])
    by (vm_compute; reflexivity).
  assert (Hc : status_code (reply truncated_call2) <> Some 200%Z)
    by discriminate.
  split; [exact H|]. split; [exact Hc|].
  destruct (get_services_stops_on_failure api_truncated sample_repr sample_token
              sample_customer blank [truncated_call1] truncated_call2 [] H Hc)
    as (_ & Hr & _).
  rewrite Hr. vm_compute. reflexivity.
Defined.

(** A single page of three items. *)
Lemma get_services_stops_on_last_page_witness :
  log (snd (get_services api_short sample_repr sample_token sample_customer
              blank)) = log blank ++ [] ++ short_call :: [] /\
  page_failed (reply short_call) = false /\
  length (items_of_call short_call) < page_size /\
  @nil call = [].
Proof.
  assert (H : log (snd (get_services api_short sample_repr sample_token
                          sample_customer blank)) =
              log blank ++ [] ++ short_call :: [])
    by (vm_compute; reflexivity).
  assert (Hf : page_failed (reply short_call) = false) by reflexivity.
  assert (Hn : length (items_of_call short_call) < page_size)
    by (vm_compute; lia).
  split; [exact H|]. split; [exact Hf|]. split; [exact Hn|].
  exact (get_services_stops_on_last_page api_short sample_repr sample_token
           sample_customer blank [] short_call [] H (or_introl (conj Hf Hn))).
Defined.

(** [svc1] when nothing answers. *)
Lemma failed_details_degrade_witness :
  status_code (api_short [] sample_token (lit "/service/svc1/details"))
    <> Some 200%Z /\
  fst (get_service_details api_short sample_repr sample_token
         (JStr (lit "svc1")) blank) =
    Ok {| name := JStr (lit "Unnamed Service"); active_version := lit "Unknown" |} /\
  map endpoint
    (log (snd (audit_service api_short sample_repr sample_token (lit "report")
                 svc1 blank))) = [lit "/service/svc1/details"].
Proof.
  assert (H : status_code (api_short [] sample_token (lit "/service/svc1/details"))
              <> Some 200%Z) by discriminate.
  destruct (failed_details_degrade api_short sample_repr sample_token
              (JStr (lit "svc1")) blank H) as [Hd Ha].
  split; [exact H|]. split; [rewrite Hd; reflexivity|].
  destruct (Ha (lit "report") [(lit "id", JStr (lit "svc1"))] eq_refl eq_refl)
    as (_ & Hl & _).
  unfold svc1. rewrite Hl. reflexivity.
Defined.

(** [svc1] with a bare [0] as active version. *)
Lemma falsy_active_version_is_none_witness :
  fst (get_service_details api_zero_version sample_repr sample_token
         (JStr (lit "svc1")) blank) =
    Ok {| name := JStr (lit "shop"); active_version := lit "None" |} /\
  map endpoint
    (log (snd (audit_service api_zero_version sample_repr sample_token
                 (lit "report") svc1 blank))) = [lit "/service/svc1/details"].
Proof.
  destruct (falsy_active_version_is_none api_zero_version sample_repr
              sample_token (JStr (lit "svc1")) blank
              [(lit "name", JStr (lit "shop")); (lit "active_version", JNum 0)]
              (JNum 0) eq_refl eq_refl eq_refl eq_refl eq_refl) as [Hd Ha].
  split; [rewrite Hd; reflexivity|].
  destruct (Ha (lit "report") [(lit "id", JStr (lit "svc1"))] eq_refl eq_refl)
    as (_ & Hl & _).
  unfold svc1. rewrite Hl. reflexivity.
Defined.

(** [svc1] at version 3 is scanned: snippet and listing lookups follow. *)
Lemma scanner_gated_by_version_witness :
  truthy (JStr (lit "svc1")) = true /\
  fst (get_service_details api_listing sample_repr sample_token
         (JStr (lit "svc1")) blank) =
    Ok {| name := JStr (lit "shop"); active_version := lit "3" |} /\
  exists calls,
    map endpoint
      (log (snd (audit_service api_listing sample_repr sample_token
                   (lit "report") svc1 blank))) =
    [lit "/service/svc1/details";
     lit "/service/svc1/version/3/snippet/ngwaf_config_init";
     lit "/service/svc1/version/3/vcl"] ++ calls.
Proof.
  assert (Hid : truthy (JStr (lit "svc1")) = true) by reflexivity.
  assert (Hd : fst (get_service_details api_listing sample_repr sample_token
                      (JStr (lit "svc1")) blank) =
               Ok {| name := JStr (lit "shop"); active_version := lit "3" |})
    by reflexivity.
  split; [exact Hid|]. split; [exact Hd|].
  destruct (scanner_gated_by_version api_listing sample_repr sample_token
              (lit "report") [(lit "id", JStr (lit "svc1"))] blank _ Hid Hd)
    as (_ & Hscan & _).
  destruct (Hscan eq_refl) as [calls Hl].
  exists (map endpoint calls). unfold svc1. rewrite Hl, map_app. reflexivity.
Defined.

(** C5, as stated, fails on both counts.  For [svc1] with a failed
    metadata lookup the version is ["Unknown"], the scanner is not invoked,
    and the challenge-enabled cell of the row is ["False"]: the sentinel
    ["No active version"] sits in the WAF-status cell instead.  And for
    [svc1] whose [active_version] is the bare boolean [true] the resolved
    version is ["True"], which is the decimal of no number, yet the scanner
    is invoked: the snippet, listing and blob lookups follow. *)
Lemma sentinel_and_known_number_both_fail :
  (let run := audit_service api_short sample_repr sample_token (lit "report")
                svc1 blank in
   fst run = Ok tt /\
   map endpoint (log (snd run)) = [lit "/service/svc1/details"] /\
   rows_in (snd run) (lit "report") =
     [[JStr (lit "Unnamed Service"); JStr (lit "svc1"); JStr (lit "Unknown");
       JStr (lit "No active version"); JStr (lit "False")]] /\
   nth 4 (last (rows_in (snd run) (lit "report")) []) JNull
     <> JStr (lit "No active version")) /\
  (let run := audit_service api_true_version sample_repr sample_token
                (lit "report") svc1 blank in
   fst (get_service_details api_true_version sample_repr sample_token
          (JStr (lit "svc1")) blank) =
     Ok {| name := JStr (lit "shop"); active_version := lit "True" |} /\
   (forall n, str_int n <> lit "True") /\
   map endpoint (log (snd run)) =
     [lit "/service/svc1/details";
      lit "/service/svc1/version/True/snippet/ngwaf_config_init";
      lit "/service/svc1/version/True/vcl";
      lit "/service/svc1/version/True/generated_vcl"]).
Proof.
  split.
  - cbv zeta. split; [reflexivity|]. split; [reflexivity|].
    split; [reflexivity|]. vm_compute. discriminate.
  - cbv zeta. split; [reflexivity|]. split; [|reflexivity].
    intros n H. destruct (str_int_head n) as (c & rest & E & Hc).
    rewrite E in H. injection H as H _. subst c. lia.
Qed.


(** ** Concrete runs for the further properties *)

Lemma scripted_history_free table : history_free (scripted table).
Proof. intros h1 h2 tok ep. reflexivity. Qed.

(** [svc1] with the structured version 3. *)
Lemma structured_version_is_usable_witness :
  fst (get_service_details api_listing sample_repr sample_token
         (JStr (lit "svc1")) blank) =
    Ok {| name := JStr (lit "shop"); active_version := lit "3" |} /\
  version_usable (lit "3") = true.
Proof.
  exact (structured_version_is_usable api_listing sample_repr sample_token
           (JStr (lit "svc1")) blank
           [(lit "name", JStr (lit "shop"));
            (lit "active_version", JDict [(lit "number", JNum 3)])]
           [(lit "number", JNum 3)] 3%Z eq_refl eq_refl eq_refl eq_refl).
Defined.

(** [svc1] whose details carry a name only. *)
Lemma missing_version_is_none_witness :
  fst (get_service_details api_no_version sample_repr sample_token
         (JStr (lit "svc1")) blank) =
    Ok {| name := JStr (lit "shop"); active_version := lit "None" |} /\
  version_usable (lit "None") = false.
Proof.
  exact (missing_version_is_none api_no_version sample_repr sample_token
           (JStr (lit "svc1")) blank [(lit "name", JStr (lit "shop"))]
           eq_refl eq_refl ltac:(discriminate) (or_introl eq_refl)).
Defined.

(** The verdict [True] on the sample listing traces back to a unit. *)
Lemma check_client_challenge_sound_witness :
  fst (check_client_challenge api_listing sample_repr sample_token
         (JStr (lit "svc1")) (lit "3") blank) = Ok true /\
  exists d, exact_then_pattern (dict_get d (lit "content") (JStr [])) = Ok true.
Proof.
  assert (H : fst (check_client_challenge api_listing sample_repr sample_token
                     (JStr (lit "svc1")) (lit "3") blank) = Ok true)
    by reflexivity.
  split; [exact H|].
  destruct (check_client_challenge_sound api_listing sample_repr sample_token
              (JStr (lit "svc1")) (lit "3") blank H)
    as [[(_ & units & d & _ & _ & Hd) | (_ & _ & d & _ & Hd)] _];
    exists d; exact Hd.
Defined.

(** The verdict [False] on the clean sample: unit and blob both fail the
    test. *)
Lemma check_client_challenge_false_is_thorough_witness :
  fst (check_client_challenge api_clean sample_repr sample_token
         (JStr (lit "svc1")) (lit "3") blank) = Ok false /\
  (exists d, clean_unit = JDict d /\
             exact_then_pattern (dict_get d (lit "content") (JStr [])) = Ok false) /\
  exact_then_pattern (JStr (lit "vcl 4.1;")) = Ok false.
Proof.
  assert (H : fst (check_client_challenge api_clean sample_repr sample_token
                     (JStr (lit "svc1")) (lit "3") blank) = Ok false)
    by reflexivity.
  destruct (check_client_challenge_false_is_thorough api_clean sample_repr
              sample_token (JStr (lit "svc1")) (lit "3") blank H)
    as [Hunits Hblob].
  split; [exact H|]. split.
  - exact (Hunits [clean_unit] clean_unit eq_refl eq_refl (or_introl eq_refl)).
  - exact (Hblob [(lit "content", JStr (lit "vcl 4.1;"))] eq_refl eq_refl).
Defined.

(** The report of the sample account. *)
Lemma report_rows_well_formed_witness :
  fst (get_services api_account sample_repr sample_token sample_customer blank)
    = Ok short_page /\
  short_page <> [] /\
  fst (main api_account sample_repr sample_token sample_customer
         (lit "20260101_000000") blank) = Ok tt /\
  exists rows,
    rows_in (snd (main api_account sample_repr sample_token sample_customer
                    (lit "20260101_000000") blank)) fixed_report_file
      = header :: rows /\
    Forall (row_ok sample_repr) rows.
Proof.
  assert (Hs : fst (get_services api_account sample_repr sample_token
                      sample_customer blank) = Ok short_page) by reflexivity.
  assert (Hne : short_page <> []) by (unfold short_page; discriminate).
  assert (Hok : fst (main api_account sample_repr sample_token sample_customer
                       (lit "20260101_000000") blank) = Ok tt)
    by (vm_compute; reflexivity).
  split; [exact Hs|]. split; [exact Hne|]. split; [exact Hok|].
  exact (report_rows_well_formed api_account sample_repr sample_token
           sample_customer (lit "20260101_000000") blank short_page Hs Hne Hok
           fixed_report_file (or_intror (or_introl eq_refl))).
Defined.

(** Both files of the sample account hold the one row of [svc1]. *)
Lemma both_reports_are_identical_witness :
  history_free api_account /\
  exists rows,
    length rows = 1 /\
    rows_in (snd (main api_account sample_repr sample_token sample_customer
                    (lit "20260101_000000") blank))
            (report_file (lit "20260101_000000")) = header :: rows /\
    rows_in (snd (main api_account sample_repr sample_token sample_customer
                    (lit "20260101_000000") blank)) fixed_report_file
      = header :: rows.
Proof.
  split; [apply scripted_history_free|].
  destruct (both_reports_are_identical api_account sample_repr sample_token
              sample_customer (lit "20260101_000000") blank short_page
              (scripted_history_free _) eq_refl
              ltac:(unfold short_page; discriminate)
              ltac:(vm_compute; reflexivity))
    as (rows & Hr & E1 & E2).
  exists rows. split; [|split; assumption].
  vm_compute in Hr. injection Hr as <-. reflexivity.
Defined.

(** A second run of the sample account, started from the state the first
    run left, at another time. *)
Lemma repeated_runs_agree_witness :
  let first := main api_account sample_repr sample_token sample_customer
                 (lit "20260101_000000") blank in
  let second := main api_account sample_repr sample_token sample_customer
                  (lit "20260102_000000") (snd first) in
  fst first = fst second /\
  rows_in (snd first) fixed_report_file = rows_in (snd second) fixed_report_file.
Proof.
  intros first second.
  destruct (repeated_runs_agree api_account sample_repr sample_token
              sample_customer (lit "20260101_000000") (lit "20260102_000000")
              blank (snd first) (scripted_history_free _))
    as (_ & Hsame & Hrows).
  split; [exact Hsame|].
  destruct (Hrows short_page eq_refl ltac:(unfold short_page; discriminate)
              ltac:(vm_compute; reflexivity)) as [Hf _].
  exact Hf.
Defined.

(** The second variant on the sample account. *)
Lemma second_variant_is_a_projection_witness :
  fst (main_v2 api_account sample_repr sample_token sample_customer
         (lit "20260101_000000") blank) = Ok tt /\
  rows_in (snd (main_v2 api_account sample_repr sample_token sample_customer
                  (lit "20260101_000000") blank)) fixed_report_file =
    map (firstn 4)
        (rows_in (snd (main api_account sample_repr sample_token sample_customer
                         (lit "20260101_000000") blank)) fixed_report_file).
Proof.
  destruct (second_variant_is_a_projection api_account sample_repr sample_token
              sample_customer (lit "20260101_000000") blank
              (lit "20260101_000000") blank short_page
              (scripted_history_free _) eq_refl
              ltac:(unfold short_page; discriminate)
              ltac:(vm_compute; reflexivity))
    as (Hok & Hf & _).
  split; assumption.
Defined.

(** The short page under both endpoints. *)
Lemma first_variant_agrees_on_a_short_page_witness :
  fst (get_services_v1 api_both sample_repr sample_token sample_customer blank)
    = Ok (JList short_page) /\
  fst (get_services api_both sample_repr sample_token sample_customer blank)
    = Ok short_page.
Proof.
  destruct (first_variant_agrees_on_a_short_page api_both sample_repr
              sample_token sample_customer blank short_page
              eq_refl eq_refl eq_refl ltac:(vm_compute; lia))
    as (_ & H1 & H2).
  split; assumption.
Defined.

(** The second unit of the broken listing is a string. *)
Lemma malformed_unit_ends_the_scan_witness :
  check_client_challenge api_broken sample_repr sample_token
    (JStr (lit "svc1")) (lit "3") blank =
  (Raise AttributeError,
   after_call api_broken blank sample_token (lit "/service/svc1/version/3/vcl")).
Proof.
  destruct (malformed_unit_ends_the_scan api_broken sample_repr sample_token
              (JStr (lit "svc1")) (lit "3") blank
              [clean_unit] (JStr (lit "oops")) [clean_unit]
              eq_refl eq_refl eq_refl) as [H _].
  exact (H eq_refl).
Defined.



